(** * express-jobly: the dynamic query composition of the models

    A shallow embedding of [helpers/sql.js] ([sqlForPartialUpdate]) and of
    the statement composition inside [models/user.js], [models/job.js] and
    [models/company.js] ([update] and [findAll]), followed by the
    properties of the composed clause text and value arrays. *)

From Stdlib Require Import Ascii String ZArith Lia.
From stdpp Require Import base strings list gmap pretty.

Local Open Scope string_scope.
Local Open Scope list_scope.

(** ** The fragment of JavaScript the sources rely on *)

Module JS.

(** The double-quote and the line-feed characters, spelled by their codes. *)
Definition dq : string := String "034"%char EmptyString.
Definition nl : string := String "010"%char EmptyString.

(** A Number: IEEE-754 binary64. A finite value is [m * 2^e], kept in the
    canonical form where [m] is odd, or [m = 0] and [e = 0] (the sign of
    zero is not tracked). *)
Inductive number : Type :=
  | NaN
  | Infinity (negative : bool)
  | Finite (m : Z) (e : Z).

Global Instance number_eq_dec : EqDecision number.
Proof. solve_decision. Defined.

(** The scalar values of a JSON body or of a bound parameter. *)
Inductive jsval : Type :=
  | JNull
  | JBool (b : bool)
  | JNum (n : number)
  | JStr (s : string).

Global Instance jsval_eq_dec : EqDecision jsval.
Proof. solve_decision. Defined.

(** What reading a property gives: [None] is [undefined]. *)
Abbreviation prop := (option jsval) (only parsing).

(** ToBoolean on a property read. *)
Definition truthy (v : prop) : bool :=
  match v with
  | None => false
  | Some JNull => false
  | Some (JBool b) => b
  | Some (JNum NaN) => false
  | Some (JNum (Finite 0 _)) => false
  | Some (JNum _) => true
  | Some (JStr EmptyString) => false
  | Some (JStr _) => true
  end.

(** [a || b] where [a] is a string or [undefined] and [b] a string. *)
Definition or_str (a : option string) (b : string) : string :=
  match a with
  | Some a' => if truthy (Some (JStr a')) then a' else b
  | None => b
  end.

(** [v === s] for a string [s]. *)
Definition strict_eq_str (v : prop) (s : string) : bool :=
  bool_decide (v = Some (JStr s)).

(** An object: its own enumerable properties, in the order in which
    [Object.keys] and [Object.values] enumerate them (for keys that are not
    array indices, the order in which they were added). *)
Abbreviation object := (list (string * jsval)) (only parsing).

Definition Object_keys (o : object) : list string := o.*1.
Definition Object_values (o : object) : list jsval := o.*2.

(** [o[k]] *)
Fixpoint obj_get (o : object) (k : string) : prop :=
  match o with
  | [] => None
  | (k', v) :: o' => if String.eqb k' k then Some v else obj_get o' k
  end.

(** [o[k] = v]: an existing property keeps its place, a new one goes last. *)
Fixpoint obj_set (o : object) (k : string) (v : jsval) : object :=
  match o with
  | [] => [(k, v)]
  | (k', v') :: o' =>
      if String.eqb k' k then (k', v) :: o' else (k', v') :: obj_set o' k v
  end.

(** [delete o[k]] *)
Definition obj_delete (o : object) (k : string) : object :=
  filter (λ kv, kv.1 ≠ k) o.

(** ToString of a scalar, given Number::toString. *)
Definition ToString (Number_toString : number → string) (v : jsval) : string :=
  match v with
  | JNull => "null"
  | JBool true => "true"
  | JBool false => "false"
  | JNum n => Number_toString n
  | JStr s => s
  end.

(** [Array.prototype.join] on an array of strings. *)
Definition join (sep : string) (l : list string) : string := String.concat sep l.

(** [arr.push(x)]: the array after the call. *)
Definition push {A} (arr : list A) (x : A) : list A := arr ++ [x].

(** *** Rounding to binary64 *)

(** [n / d] rounded to an integer, ties to even ([0 <= n], [0 < d]). *)
Definition round_half_even (n d : Z) : Z :=
  let q := (n / d)%Z in
  let r := (n mod d)%Z in
  match (2 * r ?= d)%Z with
  | Lt => q
  | Gt => (q + 1)%Z
  | Eq => if Z.even q then q else (q + 1)%Z
  end.

(** Strips the factors two of [p], counting them into [e]. *)
Fixpoint odd_part (p : positive) (e : Z) : positive * Z :=
  match p with
  | xO p' => odd_part p' (e + 1)%Z
  | _ => (p, e)
  end.

(** The double nearest to [± n / d]: the exponent [k] of the last place is
    the one of the binade of [n / d], never below the subnormal [-1074];
    a result of [2^1024] or more is an infinity. *)
Definition binary64 (negative : bool) (n d : positive) : number :=
  let l := (Z.log2 (Zpos n) - Z.log2 (Zpos d))%Z in
  let reaches :=
    if (0 <=? l)%Z then (Zpos d * 2 ^ l <=? Zpos n)%Z
    else (Zpos d <=? Zpos n * 2 ^ (- l))%Z in
  let e2 := if reaches then l else (l - 1)%Z in
  let k := Z.max (e2 - 52) (-1074) in
  let m :=
    if (0 <=? k)%Z then round_half_even (Zpos n) (Zpos d * 2 ^ k)
    else round_half_even (Zpos n * 2 ^ (- k)) (Zpos d) in
  if ((971 <? k) || ((k =? 971) && (m =? 2 ^ 53)))%Z
  then Infinity negative
  else match m with
       | Zpos p =>
           let '(p', e) := odd_part p k in
           Finite (if negative then Zneg p' else Zpos p') e
       | _ => Finite 0 0
       end.

(** The Number of a mathematical integer. *)
Definition of_Z (z : Z) : number :=
  match z with
  | Z0 => Finite 0 0
  | Zpos p => binary64 false p 1
  | Zneg p => binary64 true p 1
  end.

(** The Number of [± m * 10^x] for a natural [m]. *)
Definition of_decimal (negative : bool) (m : Z) (x : Z) : number :=
  match m with
  | Zpos p =>
      match x with
      | Zneg _ => binary64 negative p (Z.to_pos (10 ^ (- x)))
      | _ => binary64 negative (Z.to_pos (Zpos p * 10 ^ x)) 1
      end
  | _ => Finite 0 0
  end.

(** [Number.isInteger]: a finite value with no fractional part. *)
Definition Number_isInteger (n : number) : bool :=
  match n with
  | Finite m e => ((0 <=? e) || (m mod 2 ^ (- e) =? 0))%Z
  | _ => false
  end.

(** *** StringToNumber (the unary [+] on a string)

    A string is a sequence of code units below 256. *)

Definition code (c : ascii) : Z := Z.of_nat (nat_of_ascii c).

Definition is_space (c : ascii) : bool :=
  let n := code c in
  ((9 <=? n) && (n <=? 13) || (n =? 32) || (n =? 160))%Z.

(** The value of [c] as a digit of a base up to sixteen. *)
Definition digit_of (c : ascii) : option Z :=
  let n := code c in
  if ((48 <=? n) && (n <=? 57))%Z then Some (n - 48)%Z
  else if ((97 <=? n) && (n <=? 102))%Z then Some (n - 87)%Z
  else if ((65 <=? n) && (n <=? 70))%Z then Some (n - 55)%Z
  else None.

Definition is_digit (base : Z) (c : ascii) : bool :=
  match digit_of c with
  | Some d => (d <? base)%Z
  | None => false
  end.

Fixpoint skip_spaces (s : string) : string :=
  match s with
  | String c s' => if is_space c then skip_spaces s' else s
  | EmptyString => s
  end.

Definition trim (s : string) : string :=
  String.rev (skip_spaces (String.rev (skip_spaces s))).

(** Splits [s] after its longest prefix of digits of [base]. *)
Fixpoint span_digits (base : Z) (s : string) : string * string :=
  match s with
  | String c s' =>
      if is_digit base c
      then let '(ds, r) := span_digits base s' in (String c ds, r)
      else (EmptyString, s)
  | EmptyString => (EmptyString, EmptyString)
  end.

(** The value of a string of digits of [base], most significant first. *)
Fixpoint digits_value (base : Z) (acc : Z) (s : string) : Z :=
  match s with
  | String c s' => digits_value base (acc * base + default 0%Z (digit_of c))%Z s'
  | EmptyString => acc
  end.

(** A string made of one digit of [base] or more. *)
Definition all_digits (base : Z) (s : string) : option Z :=
  match span_digits base s with
  | (String _ _ as ds, EmptyString) => Some (digits_value base 0 ds)
  | _ => None
  end.

(** ExponentPart, or nothing: the exponent. *)
Definition exponent_part (s : string) : option Z :=
  match s with
  | EmptyString => Some 0%Z
  | String c r =>
      if (c =? "e")%char || (c =? "E")%char then
        match r with
        | String "+" r' => all_digits 10 r'
        | String "-" r' => Z.opp <$> all_digits 10 r'
        | _ => all_digits 10 r
        end
      else None
  end.

(** StrUnsignedDecimalLiteral. *)
Definition unsigned_decimal (negative : bool) (s : string) : number :=
  if String.eqb s "Infinity" then Infinity negative
  else
    let '(ip, r1) := span_digits 10 s in
    let '(fp, r2) :=
      match r1 with
      | String "." r => span_digits 10 r
      | _ => (EmptyString, r1)
      end in
    if String.eqb (ip +:+ fp) EmptyString then NaN
    else match exponent_part r2 with
         | Some x =>
             of_decimal negative (digits_value 10 0 (ip +:+ fp))
                        (x - Z.of_nat (String.length fp))
         | None => NaN
         end.

(** NonDecimalIntegerLiteral: [0x], [0o] and [0b]. *)
Definition non_decimal (s : string) : option number :=
  match s with
  | String "0" (String p r) =>
      let base : option Z :=
        if (p =? "x")%char || (p =? "X")%char then Some 16%Z
        else if (p =? "o")%char || (p =? "O")%char then Some 8%Z
        else if (p =? "b")%char || (p =? "B")%char then Some 2%Z
        else None in
      match base with
      | Some b => Some (default NaN (of_Z <$> all_digits b r))
      | None => None
      end
  | _ => None
  end.

Definition StringToNumber (s : string) : number :=
  let t := trim s in
  match t with
  | EmptyString => Finite 0 0
  | String "+" r => unsigned_decimal false r
  | String "-" r => unsigned_decimal true r
  | _ => match non_decimal t with
         | Some n => n
         | None => unsigned_decimal false t
         end
  end.

(** The unary [+] on a property read. *)
Definition ToNumber (v : prop) : number :=
  match v with
  | None => NaN
  | Some JNull => Finite 0 0
  | Some (JBool b) => if b then Finite 1 0 else Finite 0 0
  | Some (JNum n) => n
  | Some (JStr s) => StringToNumber s
  end.

(** *** What an object inherits, and the order of its keys *)

(** The text of a function of the engine, as a template prints it. *)
Definition native_function (name : string) : string :=
  "function " +:+ name +:+ "() { [native code] }".

(** [Object.prototype]: for each property that every object inherits, the
    text that a template gives for its value. These values are functions,
    and for [__proto__] the prototype itself: all are truthy, and none
    prints as the empty string. *)
Definition Object_prototype (k : string) : option string :=
  if String.eqb k "constructor" then Some (native_function "Object")
  else if String.eqb k "__proto__" then Some "[object Object]"
  else if bool_decide (k ∈ ["__defineGetter__"; "__defineSetter__"; "hasOwnProperty";
                            "__lookupGetter__"; "__lookupSetter__"; "isPrototypeOf";
                            "propertyIsEnumerable"; "toString"; "valueOf";
                            "toLocaleString"])
       then Some (native_function k)
  else None.

(** An array index: the canonical decimal text of an integer below
    [2^32 - 1]. *)
Definition array_index (k : string) : option Z :=
  match all_digits 10 k with
  | Some v =>
      let canonical := match k with
                       | String "0" (String _ _) => false
                       | _ => true
                       end in
      if canonical && (v <? 2 ^ 32 - 1)%Z then Some v else None
  | None => None
  end.

Definition index_of (kv : string * jsval) : Z := default 0%Z (array_index kv.1).

Fixpoint insert_by_index (kv : string * jsval) (l : object) : object :=
  match l with
  | [] => [kv]
  | kv' :: l' =>
      if (index_of kv <=? index_of kv')%Z then kv :: l
      else kv' :: insert_by_index kv l'
  end.

(** The object that [JSON.parse] makes of a request body whose members are
    written in the order of [members]: a name written twice keeps its
    first place and its last value; the keys that are array indices are
    enumerated first, in ascending order, the others after them in the
    order written. *)
Definition object_of_members (members : list (string * jsval)) : object :=
  let created := foldl (λ o kv, obj_set o kv.1 kv.2) [] members in
  foldr insert_by_index [] (filter (λ kv, is_Some (array_index kv.1)) created)
  ++ filter (λ kv, ¬ is_Some (array_index kv.1)) created.

End JS.

Export JS.


(** ** expressError.js: the two error classes the models throw *)

Inductive error : Type :=
  | BadRequestError (message : string)
  | NotFoundError (message : string)
  | TypeError (message : string).

(** The outcome of a call: a returned value or a thrown error. *)
Inductive result (A : Type) : Type :=
  | Return (a : A)
  | Throw (e : error).

Arguments Return {A} a.
Arguments Throw {A} e.

(** [`${o}`] for an object [o]: the conversion calls the [toString] that
    [o] inherits, which gives [[object Object]]; an own [toString]
    property hides it and, holding a scalar, cannot be called: the
    conversion then throws, [valueOf] giving no primitive either. *)
Definition template_object (o : object) : result string :=
  match obj_get o "toString" with
  | Some _ => Throw (TypeError "Cannot convert object to primitive value")
  | None => Return "[object Object]"
  end.

(** ** helpers/sql.js *)

Module Sql.

Record SetClause : Type := { setCols : string; values : list jsval }.

(** [jsToSql[colName] || colName], as the template prints it. The map
    [jsToSql] is an object literal: its own properties, each a string, and
    behind them what every object inherits. *)
Definition column (jsToSql : gmap string string) (colName : string) : string :=
  or_str (match jsToSql !! colName with
          | Some c => Some c
          | None => Object_prototype colName
          end) colName.

(** The array [cols]: one fragment per key. *)
Definition cols (keys : list string) (jsToSql : gmap string string) : list string :=
  imap (λ idx colName,
          dq +:+ column jsToSql colName +:+ dq +:+ "=$" +:+ pretty (idx + 1))
       keys.

Definition sqlForPartialUpdate (dataToUpdate : object) (jsToSql : gmap string string)
  : result SetClause :=
  let keys := Object_keys dataToUpdate in
  if (length keys =? 0)%nat then Throw (BadRequestError "No data")
  else
    Return {| setCols := join ", " (cols keys jsToSql);
              values := Object_values dataToUpdate |}.

End Sql.

Export Sql.

(** ** The database and the hashing collaborator

    [db.query(text, values)] is taken as a function from the statement text
    and the bound values ([None] when the call passes no array) to
    [result.rows]; [bcrypt.hash] as a function of the password and of the
    work factor of [config.js]. Both stand for the awaited value of the
    promise; a promise that rejects is outside the model. *)

Abbreviation Db := (string → option (list jsval) → list object) (only parsing).

(** ** models/user.js *)

Module User.
Section update.
Context (Number_toString : number → string).
Context (bcrypt_hash : jsval → number → jsval) (BCRYPT_WORK_FACTOR : number).
Context (db_query : Db).

Definition jsToSql : gmap string string :=
  {[ "firstName" := "first_name"; "lastName" := "last_name"; "isAdmin" := "is_admin" ]}.

(** [data] after the password, when there is one, is replaced by its hash. *)
Definition hash_password (data : object) : object :=
  match obj_get data "password" with
  | Some password =>
      if truthy (Some password)
      then obj_set data "password" (bcrypt_hash password BCRYPT_WORK_FACTOR)
      else data
  | None => data
  end.

Definition querySql (setCols usernameVarIdx : string) : string :=
    "UPDATE users " +:+ nl +:+
    "                      SET " +:+ setCols +:+ " " +:+ nl +:+
    "                      WHERE username = " +:+ usernameVarIdx +:+ " " +:+ nl +:+
    "                      RETURNING username," +:+ nl +:+
    "                                first_name AS " +:+ dq +:+ "firstName" +:+ dq +:+ "," +:+ nl +:+
    "                                last_name AS " +:+ dq +:+ "lastName" +:+ dq +:+ "," +:+ nl +:+
    "                                email," +:+ nl +:+
    "                                is_admin AS " +:+ dq +:+ "isAdmin" +:+ dq.

(** The statement text and the values that [update] hands to [db.query]. *)
Definition update_statement (username : jsval) (data : object)
  : result (string * list jsval) :=
  let data := hash_password data in
  match sqlForPartialUpdate data jsToSql with
  | Throw e => Throw e
  | Return {| setCols := setCols; values := values |} =>
      let usernameVarIdx := "$" +:+ pretty (length values + 1) in
      Return (querySql setCols usernameVarIdx, (values ++ [username])%list)
  end.

Definition update (username : jsval) (data : object) : result object :=
  match update_statement username data with
  | Throw e => Throw e
  | Return (querySql, values) =>
      let rows := db_query querySql (Some values) in
      match rows !! 0 with
      | None => Throw (NotFoundError ("No user: " +:+ ToString Number_toString username))
      | Some user => Return (obj_delete user "password")
      end
  end.

End update.
End User.

(** ** models/job.js *)

Module Job.
Section job.
Context (Number_toString : number → string).
Context (db_query : Db).

Definition baseQuery : string :=
    "SELECT id," +:+ nl +:+
    "                        title," +:+ nl +:+
    "                        salary," +:+ nl +:+
    "                        equity," +:+ nl +:+
    "                        company_handle AS " +:+ dq +:+ "companyHandle" +:+ dq +:+ nl +:+
    "                      FROM jobs ".

(** The arrays [queryStringArr] and [validValues] once the three filters
    have been looked at. *)
Definition filters (data : object) : list string * list jsval :=
  let queryStringArr : list string := [] in
  let validValues : list jsval := [] in
  let '(queryStringArr, validValues) :=
    match obj_get data "title" with
    | Some title =>
        if truthy (Some title) then
          let validValues :=
            push validValues (JStr ("%" +:+ ToString Number_toString title +:+ "%")) in
          (push queryStringArr ("title ILIKE $" +:+ pretty (length validValues) +:+ " "),
           validValues)
        else (queryStringArr, validValues)
    | None => (queryStringArr, validValues)
    end in
  let '(queryStringArr, validValues) :=
    if truthy (obj_get data "minSalary")
       && Number_isInteger (ToNumber (obj_get data "minSalary")) then
      let validValues := push validValues (JNum (ToNumber (obj_get data "minSalary"))) in
      (push queryStringArr ("salary >= $" +:+ pretty (length validValues) +:+ " "),
       validValues)
    else (queryStringArr, validValues) in
  let '(queryStringArr, validValues) :=
    if strict_eq_str (obj_get data "hasEquity") "true" then
      let validValues := push validValues (JNum (Finite 0 0)) in
      (push queryStringArr ("equity >= $" +:+ pretty (length validValues) +:+ " "),
       validValues)
    else (queryStringArr, validValues) in
  (queryStringArr, validValues).

Definition queryString (data : object) : string :=
  let '(queryStringArr, validValues) := filters data in
  if (0 <? length validValues)%nat
  then "WHERE " +:+ join "AND " queryStringArr +:+ " ORDER BY title"
  else " ORDER BY title".

(** The statement text and the values that [findAll] hands to [db.query]. *)
Definition findAll_statement (data : option object) : string * option (list jsval) :=
  match data with
  | None => (baseQuery +:+ "ORDER BY title", None)
  | Some data => (baseQuery +:+ queryString data, Some (filters data).2)
  end.

Definition findAll (data : option object) : result (list object) :=
  match data with
  | None =>
      let '(text, values) := findAll_statement None in
      Return (db_query text values)
  | Some data =>
      let '(text, values) := findAll_statement (Some data) in
      let rows := db_query text values in
      if (length rows =? 0)%nat
      then match template_object data with
           | Return text => Throw (NotFoundError ("No jobs found matching " +:+ text))
           | Throw e => Throw e
           end
      else Return rows
  end.

Definition jsToSql : gmap string string :=
  {[ "numEmployees" := "num_employees"; "logoUrl" := "logo_url" ]}.

Definition querySql (setCols idVarIdx : string) : string :=
    "UPDATE jobs " +:+ nl +:+
    "                      SET " +:+ setCols +:+ " " +:+ nl +:+
    "                      WHERE id = " +:+ idVarIdx +:+ " " +:+ nl +:+
    "                      RETURNING id," +:+ nl +:+
    "                                title, " +:+ nl +:+
    "                                salary, " +:+ nl +:+
    "                                equity, " +:+ nl +:+
    "                                company_handle AS " +:+ dq +:+ "companyHandle" +:+ dq.

Definition update_statement (id : jsval) (data : object)
  : result (string * list jsval) :=
  match sqlForPartialUpdate data jsToSql with
  | Throw e => Throw e
  | Return {| setCols := setCols; values := values |} =>
      let idVarIdx := "$" +:+ pretty (length values + 1) in
      Return (querySql setCols idVarIdx, (values ++ [id])%list)
  end.

Definition update (id : jsval) (data : object) : result object :=
  match update_statement id data with
  | Throw e => Throw e
  | Return (querySql, values) =>
      let rows := db_query querySql (Some values) in
      match rows !! 0 with
      | None =>
          Throw (NotFoundError ("No job with ID '" +:+ ToString Number_toString id +:+ "'"))
      | Some job => Return job
      end
  end.

End job.
End Job.

(** ** models/company.js *)

Module Company.
Section company.
Context (Number_toString : number → string).
Context (db_query : Db).

Definition baseQuery : string :=
    "SELECT handle," +:+ nl +:+
    "                        name," +:+ nl +:+
    "                        description," +:+ nl +:+
    "                        num_employees AS " +:+ dq +:+ "numEmployees" +:+ dq +:+ "," +:+ nl +:+
    "                        logo_url AS " +:+ dq +:+ "logoUrl" +:+ dq +:+ nl +:+
    "                      FROM companies ".

(** The arrays [queryStringArr] and [values] once the three filters have
    been looked at. *)
Definition filters (data : object) : list string * list jsval :=
  let values : list jsval := [] in
  let queryStringArr : list string := [] in
  let '(queryStringArr, values) :=
    match obj_get data "name" with
    | Some name =>
        if truthy (Some name) then
          let values := push values (JStr ("%" +:+ ToString Number_toString name +:+ "%")) in
          (push queryStringArr ("name ILIKE $" +:+ pretty (length values) +:+ " "), values)
        else (queryStringArr, values)
    | None => (queryStringArr, values)
    end in
  let '(queryStringArr, values) :=
    if truthy (obj_get data "minEmployees")
       && Number_isInteger (ToNumber (obj_get data "minEmployees")) then
      let values := push values (JNum (ToNumber (obj_get data "minEmployees"))) in
      (push queryStringArr ("num_employees >= $" +:+ pretty (length values) +:+ " "), values)
    else (queryStringArr, values) in
  let '(queryStringArr, values) :=
    if truthy (obj_get data "maxEmployees")
       && Number_isInteger (ToNumber (obj_get data "maxEmployees")) then
      let values := push values (JNum (ToNumber (obj_get data "maxEmployees"))) in
      (push queryStringArr ("num_employees <= $" +:+ pretty (length values) +:+ " "), values)
    else (queryStringArr, values) in
  (queryStringArr, values).

Definition queryString (data : object) : string :=
  let '(queryStringArr, values) := filters data in
  if (0 <? length values)%nat
  then "WHERE " +:+ join "AND " queryStringArr +:+ " ORDER BY name"
  else " ORDER BY name".

Definition findAll_statement (data : option object) : string * option (list jsval) :=
  match data with
  | None => (baseQuery +:+ "ORDER BY name", None)
  | Some data => (baseQuery +:+ queryString data, Some (filters data).2)
  end.

Definition findAll (data : option object) : result (list object) :=
  match data with
  | None =>
      let '(text, values) := findAll_statement None in
      Return (db_query text values)
  | Some data =>
      let '(text, values) := findAll_statement (Some data) in
      let rows := db_query text values in
      if (length rows =? 0)%nat
      then match template_object data with
           | Return text => Throw (NotFoundError ("No companies found matching " +:+ text))
           | Throw e => Throw e
           end
      else Return rows
  end.

Definition jsToSql : gmap string string :=
  {[ "numEmployees" := "num_employees"; "logoUrl" := "logo_url" ]}.

Definition querySql (setCols handleVarIdx : string) : string :=
    "UPDATE companies " +:+ nl +:+
    "                      SET " +:+ setCols +:+ " " +:+ nl +:+
    "                      WHERE handle = " +:+ handleVarIdx +:+ " " +:+ nl +:+
    "                      RETURNING handle, " +:+ nl +:+
    "                                name, " +:+ nl +:+
    "                                description, " +:+ nl +:+
    "                                num_employees AS " +:+ dq +:+ "numEmployees" +:+ dq +:+ ", " +:+ nl +:+
    "                                logo_url AS " +:+ dq +:+ "logoUrl" +:+ dq.

Definition update_statement (handle : jsval) (data : object)
  : result (string * list jsval) :=
  match sqlForPartialUpdate data jsToSql with
  | Throw e => Throw e
  | Return {| setCols := setCols; values := values |} =>
      let handleVarIdx := "$" +:+ pretty (length values + 1) in
      Return (querySql setCols handleVarIdx, (values ++ [handle])%list)
  end.

Definition update (handle : jsval) (data : object) : result object :=
  match update_statement handle data with
  | Throw e => Throw e
  | Return (querySql, values) =>
      let rows := db_query querySql (Some values) in
      match rows !! 0 with
      | None => Throw (NotFoundError ("No company: " +:+ ToString Number_toString handle))
      | Some company => Return company
      end
  end.

End company.
End Company.

(** ** The filter composer as the specification describes it

    A predicate table evaluated in its declared order: each entry that
    triggers contributes the text of its comparison and the value it binds;
    the fragments are numbered from one in emission order. These
    definitions follow the words of the specification and are compared
    below with [Job.filters] and [Company.filters]. *)

Module Spec.

(** The where clause of the triggered predicates: fragments and values. *)
Definition where_clause (triggered : list (string * jsval)) : list string * list jsval :=
  (imap (λ i p, p.1 +:+ "$" +:+ pretty (i + 1) +:+ " ") triggered, triggered.*2).

(** substring-match: triggers on a truthy raw value. *)
Definition substring_match (Number_toString : number → string)
    (comparison : string) (raw : prop) : list (string * jsval) :=
  match raw with
  | Some v =>
      if truthy raw
      then [(comparison, JStr ("%" +:+ ToString Number_toString v +:+ "%"))]
      else []
  | None => []
  end.

(** numeric-threshold: triggers on a truthy raw value that is an integer
    once converted to a Number. *)
Definition numeric_threshold (comparison : string) (raw : prop) : list (string * jsval) :=
  if truthy raw && Number_isInteger (ToNumber raw)
  then [(comparison, JNum (ToNumber raw))]
  else [].

(** boolean-flag-as-threshold: triggers on the token [true], binds zero. *)
Definition boolean_flag (comparison : string) (raw : prop) : list (string * jsval) :=
  if strict_eq_str raw "true" then [(comparison, JNum (Finite 0 0))] else [].

Definition job_triggered (Number_toString : number → string) (data : object)
  : list (string * jsval) :=
  substring_match Number_toString "title ILIKE " (obj_get data "title")
  ++ numeric_threshold "salary >= " (obj_get data "minSalary")
  ++ boolean_flag "equity >= " (obj_get data "hasEquity").

Definition company_triggered (Number_toString : number → string) (data : object)
  : list (string * jsval) :=
  substring_match Number_toString "name ILIKE " (obj_get data "name")
  ++ numeric_threshold "num_employees >= " (obj_get data "minEmployees")
  ++ numeric_threshold "num_employees <= " (obj_get data "maxEmployees").

End Spec.

(** ** The operations that run several statements

    For the operations below the database is a state that every
    [db.query] call may change: an operation maps the state before to its
    outcome and the state after. A bound value or a destructured argument
    may be [undefined]; an object built with such a property is the object
    without it, since the callee only reads it. *)

Module Conn.
Section conn.
Context {S : Type}.

(** An awaited operation: the outcome and the state of the database after. *)
Definition Async (A : Type) : Type := S → result A * S.

Definition ret {A} (a : A) : Async A := λ s, (Return a, s).

Definition throw {A} (e : error) : Async A := λ s, (Throw e, s).

Definition bind {A B} (m : Async A) (k : A → Async B) : Async B :=
  λ s, match m s with
       | (Return a, s') => k a s'
       | (Throw e, s') => (Throw e, s')
       end.

(** [(await db.query(text, values)).rows] *)
Definition query (db_query : string → option (list prop) → S → list object * S)
    (text : string) (values : option (list prop)) : Async (list object) :=
  λ s, let '(rows, s') := db_query text values s in (Return rows, s').

End conn.
End Conn.

Notation "'await' x '<-' m 'in' k" := (Conn.bind m (λ x, k))
  (at level 10, x name, m at level 100, k at level 200).

(** ToString of a value that may be [undefined]. *)
Definition ToString_prop (Number_toString : number → string) (v : prop) : string :=
  match v with
  | Some v => ToString Number_toString v
  | None => "undefined"
  end.

(** [{k1, k2, ...}] built from the variables destructured out of [o]. *)
Definition pick (keys : list string) (o : object) : object :=
  omap (λ k, (λ v, (k, v)) <$> obj_get o k) keys.

(** *** models/user.js, the other operations *)

Module UserModel.

(** What [authenticate] gives: the user, or a thrown [UnauthorizedError]. *)
Inductive authenticated : Type :=
  | User (user : object)
  | UnauthorizedError (message : string).

(** What [get] returns. *)
Record UserData : Type := {
  username : jsval;
  firstName : prop;
  lastName : prop;
  email : prop;
  isAdmin : prop;
  jobs : list prop
}.

Section user.
Context {S : Type}.
Context (Number_toString : number → string).
Context (bcrypt_hash : prop → number → jsval) (BCRYPT_WORK_FACTOR : number).
Context (bcrypt_compare : jsval → prop → bool).
Context (db_query : string → option (list prop) → S → list object * S).

Definition authenticate_sql : string :=
    "SELECT username," +:+ nl +:+
    "                  password," +:+ nl +:+
    "                  first_name AS " +:+ dq +:+ "firstName" +:+ dq +:+ "," +:+ nl +:+
    "                  last_name AS " +:+ dq +:+ "lastName" +:+ dq +:+ "," +:+ nl +:+
    "                  email," +:+ nl +:+
    "                  is_admin AS " +:+ dq +:+ "isAdmin" +:+ dq +:+ nl +:+
    "           FROM users" +:+ nl +:+
    "           WHERE username = $1".

Definition authenticate (username password : jsval) : S → authenticated * S :=
  λ s,
    let '(rows, s') := db_query authenticate_sql (Some [Some username]) s in
    match rows !! 0 with
    | Some user =>
        let isValid := bcrypt_compare password (obj_get user "password") in
        if isValid then (User (obj_delete user "password"), s')
        else (UnauthorizedError "Invalid username/password", s')
    | None => (UnauthorizedError "Invalid username/password", s')
    end.

Definition duplicateCheck_sql : string :=
    "SELECT username" +:+ nl +:+
    "           FROM users" +:+ nl +:+
    "           WHERE username = $1".

Definition register_sql : string :=
    "INSERT INTO users" +:+ nl +:+
    "           (username," +:+ nl +:+
    "            password," +:+ nl +:+
    "            first_name," +:+ nl +:+
    "            last_name," +:+ nl +:+
    "            email," +:+ nl +:+
    "            is_admin)" +:+ nl +:+
    "           VALUES ($1, $2, $3, $4, $5, $6)" +:+ nl +:+
    "           RETURNING username, first_name AS " +:+ dq +:+ "firstName" +:+ dq +:+ ", last_name AS " +:+ dq +:+ "lastName" +:+ dq +:+ ", email, is_admin AS " +:+ dq +:+ "isAdmin" +:+ dq.

(** The result is [result.rows[0]], [undefined] when there is no row. *)
Definition register (data : object) : Conn.Async (option object) :=
  let username := obj_get data "username" in
  let password := obj_get data "password" in
  let firstName := obj_get data "firstName" in
  let lastName := obj_get data "lastName" in
  let email := obj_get data "email" in
  let isAdmin := obj_get data "isAdmin" in
  await duplicateCheck <- Conn.query db_query duplicateCheck_sql (Some [username]) in
  match duplicateCheck !! 0 with
  | Some _ =>
      Conn.throw (BadRequestError
                    ("Duplicate username: " +:+ ToString_prop Number_toString username))
  | None =>
      let hashedPassword := bcrypt_hash password BCRYPT_WORK_FACTOR in
      await rows <- Conn.query db_query register_sql
                (Some [username; Some hashedPassword; firstName; lastName; email; isAdmin]) in
      Conn.ret (rows !! 0)
  end.

Definition get_sql : string :=
    "SELECT u.username," +:+ nl +:+
    "                  u.first_name AS " +:+ dq +:+ "firstName" +:+ dq +:+ "," +:+ nl +:+
    "                  u.last_name AS " +:+ dq +:+ "lastName" +:+ dq +:+ "," +:+ nl +:+
    "                  u.email," +:+ nl +:+
    "                  u.is_admin AS " +:+ dq +:+ "isAdmin" +:+ dq +:+ "," +:+ nl +:+
    "                  a.job_id AS " +:+ dq +:+ "jobId" +:+ dq +:+ nl +:+
    "           FROM users AS u" +:+ nl +:+
    "           LEFT JOIN applications AS a" +:+ nl +:+
    "           ON u.username = a.username" +:+ nl +:+
    "           WHERE u.username = $1".

Definition get (username : jsval) : Conn.Async UserData :=
  await u <- Conn.query db_query get_sql (Some [Some username]) in
  match u with
  | [] => Conn.throw (NotFoundError ("No user: " +:+ ToString Number_toString username))
  | u0 :: _ =>
      Conn.ret {| username := username;
                  firstName := obj_get u0 "firstName";
                  lastName := obj_get u0 "lastName";
                  email := obj_get u0 "email";
                  isAdmin := obj_get u0 "isAdmin";
                  jobs := (λ j, obj_get j "jobId") <$> u |}
  end.

End user.
End UserModel.

(** *** models/job.js, the other operations *)

Module JobModel.
Section job.
Context {S : Type}.
Context (Number_toString : number → string).
Context (db_query : string → option (list prop) → S → list object * S).

Definition checkCompanyExists_sql : string :=
    "SELECT handle" +:+ nl +:+
    "           FROM companies" +:+ nl +:+
    "           WHERE handle = $1".

Definition checkForDupe_sql : string :=
    "SELECT * FROM jobs" +:+ nl +:+
    "         WHERE title = $1" +:+ nl +:+
    "         AND salary = $2" +:+ nl +:+
    "         AND equity = $3" +:+ nl +:+
    "         AND company_handle = $4".

Definition create_sql : string :=
    "INSERT INTO jobs" +:+ nl +:+
    "           (title, salary, equity, company_handle)" +:+ nl +:+
    "           VALUES ($1, $2, $3, $4 )" +:+ nl +:+
    "           RETURNING id, title, salary, equity, company_handle AS " +:+ dq +:+ "companyHandle" +:+ dq.

(** The message of a duplicate interpolates a comma expression, whose value
    is its last operand. The result is [result.rows[0]]. *)
Definition create (data : object) : Conn.Async (option object) :=
  let title := obj_get data "title" in
  let salary := obj_get data "salary" in
  let equity := obj_get data "equity" in
  let companyHandle := obj_get data "companyHandle" in
  await checkCompanyExists <-
    Conn.query db_query checkCompanyExists_sql (Some [companyHandle]) in
  match checkCompanyExists !! 0 with
  | None =>
      Conn.throw (BadRequestError
                    ("No such company: " +:+ ToString_prop Number_toString companyHandle))
  | Some _ =>
      await checkForDupe <-
        Conn.query db_query checkForDupe_sql
          (Some [title; salary; equity; companyHandle]) in
      if (0 <? length checkForDupe)%nat then
        Conn.throw (BadRequestError
                      ("Duplicate job : " +:+ ToString_prop Number_toString companyHandle))
      else
        await rows <- Conn.query db_query create_sql
                  (Some [title; salary; equity; companyHandle]) in
        Conn.ret (rows !! 0)
  end.

Definition get_sql : string :=
    "SELECT id," +:+ nl +:+
    "            title," +:+ nl +:+
    "            salary," +:+ nl +:+
    "            equity," +:+ nl +:+
    "            company_handle AS " +:+ dq +:+ "companyHandle" +:+ dq +:+ nl +:+
    "        FROM jobs" +:+ nl +:+
    "        WHERE id = $1".

Definition get (id : jsval) : Conn.Async object :=
  await jobRes <- Conn.query db_query get_sql (Some [Some id]) in
  match jobRes !! 0 with
  | None =>
      Conn.throw (NotFoundError
                    ("No job with id of " +:+ ToString Number_toString id +:+ " found."))
  | Some job => Conn.ret job
  end.

End job.
End JobModel.

(** *** [User.applyForJob], which calls [User.get] and [Job.get] *)

Module Application.
Section application.
Context {S : Type}.
Context (Number_toString : number → string).
Context (db_query : string → option (list prop) → S → list object * S).

Definition checkForDupe_sql : string :=
    nl +:+
    "      SELECT username, job_id AS " +:+ dq +:+ "jobId" +:+ dq +:+ nl +:+
    "        FROM applications" +:+ nl +:+
    "        WHERE username = $1" +:+ nl +:+
    "        AND job_id = $2".

Definition application_sql : string :=
    nl +:+
    "      INSERT INTO applications (username, job_id)" +:+ nl +:+
    "        VALUES ($1, $2)" +:+ nl +:+
    "        RETURNING job_id AS " +:+ dq +:+ "jobId" +:+ dq.

Definition applyForJob (username jobId : jsval) : Conn.Async prop :=
  await checkForDupe <-
    Conn.query db_query checkForDupe_sql (Some [Some username; Some jobId]) in
  match checkForDupe !! 0 with
  | Some _ =>
      Conn.throw (BadRequestError
                    (ToString Number_toString username +:+ " has already applied for job "
                     +:+ ToString Number_toString jobId +:+ "."))
  | None =>
      await user <- UserModel.get Number_toString db_query username in
      await job <- JobModel.get Number_toString db_query jobId in
      await applicationRes <-
        Conn.query db_query application_sql (Some [Some username; obj_get job "id"]) in
      match applicationRes !! 0 with
      | None => Conn.throw (BadRequestError "Could not complete application.")
      | Some application => Conn.ret (obj_get application "jobId")
      end
  end.

End application.
End Application.

(** *** models/company.js, the other operations *)

Module CompanyModel.

(** An entry of [jobs] in what [get] returns. *)
Record JobData : Type := {
  id : prop;
  title : prop;
  salary : prop;
  equity : prop
}.

(** What [get] returns; [jobs] is [None] when the object has no such key. *)
Record CompanyData : Type := {
  handle : jsval;
  name : prop;
  description : prop;
  numEmployees : prop;
  logoUrl : prop;
  jobs : option (list JobData)
}.

Section company.
Context {S : Type}.
Context (Number_toString : number → string).
Context (db_query : string → option (list prop) → S → list object * S).

Definition duplicateCheck_sql : string :=
    "SELECT handle" +:+ nl +:+
    "           FROM companies" +:+ nl +:+
    "           WHERE handle = $1".

Definition create_sql : string :=
    "INSERT INTO companies" +:+ nl +:+
    "           (handle, name, description, num_employees, logo_url)" +:+ nl +:+
    "           VALUES ($1, $2, $3, $4, $5)" +:+ nl +:+
    "           RETURNING handle, name, description, num_employees AS " +:+ dq +:+ "numEmployees" +:+ dq +:+ ", logo_url AS " +:+ dq +:+ "logoUrl" +:+ dq.

Definition create (data : object) : Conn.Async (option object) :=
  let handle := obj_get data "handle" in
  let name := obj_get data "name" in
  let description := obj_get data "description" in
  let numEmployees := obj_get data "numEmployees" in
  let logoUrl := obj_get data "logoUrl" in
  await duplicateCheck <- Conn.query db_query duplicateCheck_sql (Some [handle]) in
  match duplicateCheck !! 0 with
  | Some _ =>
      Conn.throw (BadRequestError
                    ("Duplicate company: " +:+ ToString_prop Number_toString handle))
  | None =>
      await rows <- Conn.query db_query create_sql
                (Some [handle; name; description; numEmployees; logoUrl]) in
      Conn.ret (rows !! 0)
  end.

Definition get_sql : string :=
    "SELECT c.handle," +:+ nl +:+
    "                  c.name," +:+ nl +:+
    "                  c.description," +:+ nl +:+
    "                  c.num_employees AS " +:+ dq +:+ "numEmployees" +:+ dq +:+ "," +:+ nl +:+
    "                  c.logo_url AS " +:+ dq +:+ "logoUrl" +:+ dq +:+ "," +:+ nl +:+
    "                  j.id," +:+ nl +:+
    "                  j.title," +:+ nl +:+
    "                  j.salary," +:+ nl +:+
    "                  j.equity" +:+ nl +:+
    "            FROM companies AS c" +:+ nl +:+
    "            LEFT JOIN jobs AS j ON c.handle = j.company_handle" +:+ nl +:+
    "           WHERE handle = $1".

Definition get (handle : jsval) : Conn.Async CompanyData :=
  await rows <- Conn.query db_query get_sql (Some [Some handle]) in
  match rows with
  | [] => Conn.throw (NotFoundError ("No company: " +:+ ToString Number_toString handle))
  | row0 :: _ =>
      let name := obj_get row0 "name" in
      let description := obj_get row0 "description" in
      let numEmployees := obj_get row0 "numEmployees" in
      let logoUrl := obj_get row0 "logoUrl" in
      if (length rows =? 1)%nat && negb (truthy (obj_get row0 "id")) then
        Conn.ret {| handle := handle; name := name; description := description;
                    numEmployees := numEmployees; logoUrl := logoUrl; jobs := None |}
      else
        Conn.ret {| handle := handle; name := name; description := description;
                    numEmployees := numEmployees; logoUrl := logoUrl;
                    jobs := Some ((λ j, {| id := obj_get j "id";
                                           title := obj_get j "title";
                                           salary := obj_get j "salary";
                                           equity := obj_get j "equity" |}) <$> rows) |}
  end.

End company.
End CompanyModel.

(** *** routes/jobs.js: the two routes that need no authorization

    The response [res.json({ jobs })] or [res.json({ job })] is the returned
    value; an error handed to [next] is the thrown one. The values of
    [req.query] are strings. *)

Module JobRoutes.

Section list.
Context (Number_toString : number → string).
Context (db_query : Db).

(** [GET /] *)
Definition get_jobs (req_query : object) : result (list object) :=
  if (length (Object_values req_query) =? 0)%nat then
    Job.findAll Number_toString db_query None
  else
    Job.findAll Number_toString db_query
      (Some (pick ["title"; "minSalary"; "hasEquity"] req_query)).

End list.

Section one.
Context {S : Type}.
Context (Number_toString : number → string).
Context (db_query : string → option (list prop) → S → list object * S).

(** [GET /:id] *)
Definition get_job (req_params_id : string) : Conn.Async object :=
  if negb (Number_isInteger (ToNumber (Some (JStr req_params_id)))) then
    Conn.throw (BadRequestError "Job ID must be an integer.")
  else
    JobModel.get Number_toString db_query (JNum (ToNumber (Some (JStr req_params_id)))).

End one.
End JobRoutes.

(** ** Sanity checks of the Number model *)

Example to_number_1 : StringToNumber "1" = Finite 1 0.
Proof. reflexivity. Qed.

Example to_number_nope : StringToNumber "nope" = NaN.
Proof. reflexivity. Qed.

Example to_number_70000 : StringToNumber "70000" = of_Z 70000.
Proof. vm_compute. reflexivity. Qed.

Example to_number_forms :
  StringToNumber " 12 " = of_Z 12 /\ StringToNumber "1e3" = of_Z 1000 /\
  StringToNumber "0x10" = of_Z 16 /\ StringToNumber "-7.0" = of_Z (-7) /\
  StringToNumber "1.5" = Finite 3 (-1) /\ StringToNumber "." = NaN /\
  StringToNumber "1e" = NaN /\ StringToNumber "12px" = NaN /\
  StringToNumber "-0x10" = NaN /\ StringToNumber "Infinity" = Infinity false /\
  StringToNumber EmptyString = Finite 0 0 /\ StringToNumber ".5" = Finite 1 (-1).
Proof. vm_compute. repeat split. Qed.

Example to_number_rounds :
  StringToNumber "0.1" = Finite 3602879701896397 (-55) /\
  StringToNumber "9007199254740993" = Finite 1 53 /\
  StringToNumber "9007199254740995" = Finite 2251799813685249 2 /\
  StringToNumber "0.99999999999999999999" = Finite 1 0 /\
  StringToNumber "1e400" = Infinity false /\
  StringToNumber "1e-400" = Finite 0 0 /\
  StringToNumber "5e-324" = Finite 1 (-1074) /\
  StringToNumber "1.7976931348623157e308" = Finite 9007199254740991 971 /\
  StringToNumber "1.7976931348623159e308" = Infinity false.
Proof. vm_compute. repeat split. Qed.

Example is_integer_checks :
  Number_isInteger (StringToNumber "1") = true /\
  Number_isInteger (StringToNumber "1.5") = false /\
  Number_isInteger (StringToNumber "nope") = false /\
  Number_isInteger (StringToNumber "1e400") = false.
Proof. vm_compute. repeat split. Qed.

(** ** Properties of [sqlForPartialUpdate] *)

Section sql_facts.
Implicit Types (data : object) (jsToSql : gmap string string).

Lemma length_Object_keys data : length (Object_keys data) = length data.
Proof. unfold Object_keys. by rewrite length_fmap. Qed.

Lemma length_Object_values data : length (Object_values data) = length data.
Proof. unfold Object_values. by rewrite length_fmap. Qed.

Lemma Object_keys_lookup data i k v :
  data !! i = Some (k, v) → Object_keys data !! i = Some k.
Proof. intros H. unfold Object_keys. by rewrite list_lookup_fmap, H. Qed.

Lemma Object_values_lookup data i k v :
  data !! i = Some (k, v) → Object_values data !! i = Some v.
Proof. intros H. unfold Object_values. by rewrite list_lookup_fmap, H. Qed.

Lemma length_cols keys jsToSql : length (cols keys jsToSql) = length keys.
Proof. unfold cols. apply length_imap. Qed.

Lemma cols_lookup keys jsToSql i k :
  keys !! i = Some k →
  cols keys jsToSql !! i
  = Some (dq +:+ column jsToSql k +:+ dq +:+ "=$" +:+ pretty (i + 1)).
Proof. intros H. unfold cols. by rewrite list_lookup_imap, H. Qed.

(** On a record with at least one field the call returns. *)
Lemma sqlForPartialUpdate_nonempty data jsToSql :
  data ≠ [] →
  sqlForPartialUpdate data jsToSql
  = Return {| setCols := join ", " (cols (Object_keys data) jsToSql);
              values := Object_values data |}.
Proof.
  intros Hne. unfold sqlForPartialUpdate.
  destruct data as [|kv data']; [done|]. reflexivity.
Qed.

(** The column of a field: an own entry that is not empty. *)
Lemma column_own jsToSql k c :
  jsToSql !! k = Some c → c ≠ EmptyString → column jsToSql k = c.
Proof. unfold column. intros -> Hc. destruct c; [done|]. reflexivity. Qed.

(** An own entry that is empty is falsy: the field name stands. *)
Lemma column_own_empty jsToSql k :
  jsToSql !! k = Some EmptyString → column jsToSql k = k.
Proof. unfold column. by intros ->. Qed.

(** No own entry, and a name that no object inherits: the field name. *)
Lemma column_fallback jsToSql k :
  jsToSql !! k = None → Object_prototype k = None → column jsToSql k = k.
Proof. unfold column. by intros -> ->. Qed.

(** No own entry, and a name that every object inherits: the text of the
    inherited value. *)
Lemma column_inherited jsToSql k text :
  jsToSql !! k = None → Object_prototype k = Some text → column jsToSql k = text.
Proof.
  unfold column. intros -> Hp. rewrite Hp.
  unfold Object_prototype in Hp. repeat case_match; simplify_eq; reflexivity.
Qed.

Lemma length_obj_set_fresh (o : list (string * jsval)) k v :
  k ∉ o.*1 → obj_set o k v = o ++ [(k, v)].
Proof.
  induction o as [|[k0 v0] o IH]; [done|]. cbn. intros Hk.
  apply not_elem_of_cons in Hk as [Hne Hk].
  destruct (String.eqb_spec k0 k); [congruence|]. by rewrite IH.
Qed.

Lemma foldl_obj_set_fresh (members acc : list (string * jsval)) :
  NoDup members.*1 →
  (∀ k, k ∈ members.*1 → k ∉ acc.*1) →
  foldl (λ o kv, obj_set o kv.1 kv.2) acc members = acc ++ members.
Proof.
  revert acc. induction members as [|[k v] members IH]; intros acc Hnd Hfresh.
  - by rewrite app_nil_r.
  - cbn in Hnd. apply NoDup_cons in Hnd as [Hk Hnd]. cbn [foldl fst snd].
    rewrite length_obj_set_fresh by (apply Hfresh; cbn; left).
    rewrite IH; [by rewrite <- (assoc_L (++))|done|].
    intros k' Hk'. rewrite fmap_app. cbn. intros [Hin|Hin%list_elem_of_singleton]%elem_of_app.
    + apply (Hfresh k'); [cbn; by right | done].
    + by subst k'.
Qed.

(** Members written once each, none under an array index, make the object
    whose keys are enumerated in the order written. *)
Lemma object_of_members_id (members : list (string * jsval)) :
  NoDup members.*1 →
  (∀ k, k ∈ members.*1 → array_index k = None) →
  object_of_members members = members.
Proof.
  intros Hnd Hidx. unfold object_of_members.
  rewrite foldl_obj_set_fresh; [|done|by intros k _ ?%elem_of_nil]. cbn [app].
  assert (filter (λ kv : string * jsval, is_Some (array_index kv.1)) members = []
          ∧ filter (λ kv : string * jsval, ¬ is_Some (array_index kv.1)) members
            = members) as [-> ->]; [|done].
  clear Hnd. induction members as [|[k v] members IH]; [done|].
  assert (array_index k = None) as Hk by (apply Hidx; cbn; left).
  destruct IH as [IH1 IH2]; [intros k' Hk'; apply Hidx; cbn; by right|].
  rewrite !filter_cons. cbn [fst].
  rewrite decide_False by (rewrite Hk; by intros [? ?]).
  rewrite decide_True by (rewrite Hk; by intros [? ?]).
  by rewrite IH1, IH2.
Qed.

End sql_facts.

(** C1. For a record with at least one field, in whatever order its fields
    come ([data'] ranges over the reorderings of [data]), the call returns
    a clause that is the join of one fragment per field, with one value per
    field; the fragment at position [i] is the assignment of the field at
    position [i], the column of that field between double quotes followed
    by the placeholder [$(i+1)], and the value at position [i] is the value
    of that field. The column of a field is its entry in the map when that
    is not empty, and the field name when the map has no entry and no
    object inherits a property of that name. *)
Theorem C1_fragments_values_aligned
    (data data' : object) (jsToSql : gmap string string) :
  data ≠ [] →
  data' ≡ₚ data →
  ∃ fragments vals,
    sqlForPartialUpdate data' jsToSql
    = Return {| setCols := join ", " fragments; values := vals |}
    ∧ length fragments = length data
    ∧ length vals = length data
    ∧ ∀ i k v, data' !! i = Some (k, v) →
        fragments !! i
        = Some (dq +:+ column jsToSql k +:+ dq +:+ "=$" +:+ pretty (i + 1))
        ∧ vals !! i = Some v
        ∧ (∀ c, jsToSql !! k = Some c → c ≠ EmptyString → column jsToSql k = c)
        ∧ (jsToSql !! k = None → Object_prototype k = None → column jsToSql k = k).
Proof.
  intros Hne Hperm.
  assert (data' ≠ []) as Hne'.
  { intros ->. apply Permutation_nil_l in Hperm. by subst. }
  exists (cols (Object_keys data') jsToSql), (Object_values data').
  split; [by apply sqlForPartialUpdate_nonempty|].
  split; [by rewrite length_cols, length_Object_keys, Hperm|].
  split; [by rewrite length_Object_values, Hperm|].
  intros i k v Hi. split; [|split; [|split]].
  - apply cols_lookup. by eapply Object_keys_lookup.
  - by eapply Object_values_lookup.
  - intros c. apply column_own.
  - apply column_fallback.
Qed.

Lemma C1_witness :
  ∃ fragments vals,
    sqlForPartialUpdate [("email", JStr "new@email.com"); ("firstName", JStr "Bob")]
                        User.jsToSql
    = Return {| setCols := join ", " fragments; values := vals |}
    ∧ length fragments = 2
    ∧ length vals = 2
    ∧ ∀ i k v,
        [("email", JStr "new@email.com"); ("firstName", JStr "Bob")] !! i = Some (k, v) →
        fragments !! i
        = Some (dq +:+ column User.jsToSql k +:+ dq +:+ "=$" +:+ pretty (i + 1))
        ∧ vals !! i = Some v
        ∧ (∀ c, User.jsToSql !! k = Some c → c ≠ EmptyString → column User.jsToSql k = c)
        ∧ (User.jsToSql !! k = None → Object_prototype k = None
           → column User.jsToSql k = k).
Proof.
  apply (C1_fragments_values_aligned
           [("firstName", JStr "Bob"); ("email", JStr "new@email.com")]).
  - discriminate.
  - apply perm_swap.
Defined.

(** C2. Whatever the field-name map, a record with no entry makes the call
    throw [BadRequestError]; it returns no clause and no value array. *)
Theorem C2_empty_record_rejected (jsToSql : gmap string string) :
  sqlForPartialUpdate [] jsToSql = Throw (BadRequestError "No data")
  ∧ ∀ clause, sqlForPartialUpdate [] jsToSql ≠ Return clause.
Proof. split; [reflexivity | discriminate]. Qed.

(** C4 fails as stated. An entry of the map that is the empty string is
    present, yet the fragment carries the field name. A field named
    [constructor] has no entry in a map that is an object literal, yet the
    fragment carries the text of what the map inherits under that name.
    And a request that names the field [b] before the field [1] makes an
    object whose keys come in the order [1], [b], which is the order of the
    fragments. *)
Lemma C4_counterexample :
  (let jsToSql : gmap string string := {[ "a" := EmptyString ]} in
   jsToSql !! "a" = Some EmptyString
   ∧ sqlForPartialUpdate [("a", JStr "x")] jsToSql
     = Return {| setCols := dq +:+ "a" +:+ dq +:+ "=$1"; values := [JStr "x"] |}
   ∧ sqlForPartialUpdate [("a", JStr "x")] jsToSql
     ≠ Return {| setCols := dq +:+ EmptyString +:+ dq +:+ "=$1"; values := [JStr "x"] |})
  ∧ (User.jsToSql !! "constructor" = None
     ∧ sqlForPartialUpdate [("constructor", JStr "x")] User.jsToSql
       = Return {| setCols := dq +:+ "function Object() { [native code] }" +:+ dq +:+ "=$1";
                   values := [JStr "x"] |}
     ∧ sqlForPartialUpdate [("constructor", JStr "x")] User.jsToSql
       ≠ Return {| setCols := dq +:+ "constructor" +:+ dq +:+ "=$1";
                   values := [JStr "x"] |})
  ∧ (object_of_members [("b", JStr "x"); ("1", JStr "y")]
     = [("1", JStr "y"); ("b", JStr "x")]
     ∧ sqlForPartialUpdate (object_of_members [("b", JStr "x"); ("1", JStr "y")]) ∅
       = Return {| setCols := dq +:+ "1" +:+ dq +:+ "=$1, " +:+ dq +:+ "b" +:+ dq +:+ "=$2";
                   values := [JStr "y"; JStr "x"] |}).
Proof.
  split; [|split].
  - vm_compute. split; [reflexivity|]. split; [reflexivity | discriminate].
  - vm_compute. split; [reflexivity|]. split; [reflexivity | discriminate].
  - vm_compute. split; reflexivity.
Qed.

(** C4, amended. The fields are taken in the order in which the keys of
    the record are enumerated, which is the order of the request when the
    request names each field once and no field name is an array index; the
    fragment of the field at position [i] is ["<column>"=$(i+1)], where the
    column is the entry of the map for the field when there is one and it
    is not the empty string, and the field name itself, between quotes and
    otherwise as it is, when the entry is empty, or when there is no entry
    and the name is not one that every object inherits; the fragments are
    joined with [", "]. The record
    [{firstName: "Bob", email: "new@email.com"}] with the map
    [{firstName: "first_name"}] gives the clause
    ["first_name"=$1, "email"=$2] and the values ["Bob"; "new@email.com"]. *)
Theorem C4_fragment_per_field_in_order :
  (∀ (data : object) (jsToSql : gmap string string),
     data ≠ [] →
     ∃ fragments,
       sqlForPartialUpdate data jsToSql
       = Return {| setCols := join ", " fragments; values := Object_values data |}
       ∧ length fragments = length data
       ∧ ∀ i k v, data !! i = Some (k, v) →
           ∃ column,
             fragments !! i = Some (dq +:+ column +:+ dq +:+ "=$" +:+ pretty (i + 1))
             ∧ (∀ c, jsToSql !! k = Some c → c ≠ EmptyString → column = c)
             ∧ (jsToSql !! k = Some EmptyString → column = k)
             ∧ (jsToSql !! k = None → Object_prototype k = None → column = k))
  ∧ (∀ members : list (string * jsval),
       NoDup members.*1 →
       (∀ k, k ∈ members.*1 → array_index k = None) →
       object_of_members members = members)
  ∧ sqlForPartialUpdate
      (object_of_members [("firstName", JStr "Bob"); ("email", JStr "new@email.com")])
      {[ "firstName" := "first_name" ]}
    = Return {| setCols := dq +:+ "first_name" +:+ dq +:+ "=$1, "
                           +:+ dq +:+ "email" +:+ dq +:+ "=$2";
                values := [JStr "Bob"; JStr "new@email.com"] |}.
Proof.
  split; [|split; [apply object_of_members_id | by vm_compute]].
  intros data jsToSql Hne.
  exists (cols (Object_keys data) jsToSql).
  split; [by apply sqlForPartialUpdate_nonempty|].
  split; [by rewrite length_cols, length_Object_keys|].
  intros i k v Hi. exists (column jsToSql k).
  split; [apply cols_lookup; by eapply Object_keys_lookup|].
  split; [intros c; apply column_own|].
  split; [apply column_own_empty | apply column_fallback].
Qed.

Lemma C4_witness :
  (∃ fragments,
     sqlForPartialUpdate [("noKey", JStr "value")] User.jsToSql
     = Return {| setCols := join ", " fragments;
                 values := Object_values [("noKey", JStr "value")] |}
     ∧ length fragments = 1
     ∧ ∀ i k v, [("noKey", JStr "value")] !! i = Some (k, v) →
         ∃ column,
           fragments !! i = Some (dq +:+ column +:+ dq +:+ "=$" +:+ pretty (i + 1))
           ∧ (∀ c, User.jsToSql !! k = Some c → c ≠ EmptyString → column = c)
           ∧ (User.jsToSql !! k = Some EmptyString → column = k)
           ∧ (User.jsToSql !! k = None → Object_prototype k = None → column = k))
  ∧ object_of_members [("title", JStr "new"); ("salary", JNull)]
    = [("title", JStr "new"); ("salary", JNull)].
Proof.
  split.
  - apply (proj1 C4_fragment_per_field_in_order [("noKey", JStr "value")] User.jsToSql).
    discriminate.
  - apply (proj1 (proj2 C4_fragment_per_field_in_order)
             [("title", JStr "new"); ("salary", JNull)]).
    + apply (bool_decide_unpack _). by vm_compute.
    + apply Forall_forall. apply (bool_decide_unpack _). by vm_compute.
Defined.

(** C9. The value of every field, [null] included, is at the position of
    its field in the value array, as it is: the value array is the list of
    the values of the record. *)
Theorem C9_values_pass_through
    (data : object) (jsToSql : gmap string string) (i : nat) (k : string) (v : jsval) :
  data !! i = Some (k, v) →
  ∃ clause,
    sqlForPartialUpdate data jsToSql = Return clause
    ∧ values clause !! i = Some v
    ∧ (v = JNull → values clause !! i = Some JNull)
    ∧ values clause = data.*2
    ∧ length (values clause) = length data.
Proof.
  intros Hi. eexists. split.
  - apply sqlForPartialUpdate_nonempty. by intros ->.
  - cbn [values]. split; [by eapply Object_values_lookup|].
    split; [intros <-; by eapply Object_values_lookup|].
    split; [reflexivity | apply length_Object_values].
Qed.

Lemma C9_witness :
  ∃ clause,
    sqlForPartialUpdate [("title", JStr "new"); ("salary", JNull); ("equity", JNull)]
                        Job.jsToSql
    = Return clause
    ∧ values clause !! 1 = Some JNull
    ∧ (JNull = JNull → values clause !! 1 = Some JNull)
    ∧ values clause = [JStr "new"; JNull; JNull]
    ∧ length (values clause) = 3.
Proof.
  apply (C9_values_pass_through
           [("title", JStr "new"); ("salary", JNull); ("equity", JNull)]
           Job.jsToSql 1 "salary" JNull).
  reflexivity.
Defined.

(** ** Properties of the filter composition *)

Section filter_facts.
Context (Number_toString : number → string).
Implicit Types (data : object).

(** [Job.filters] is the where clause of the job predicate table. *)
Lemma Job_filters_refines data :
  Job.filters Number_toString data
  = Spec.where_clause (Spec.job_triggered Number_toString data).
Proof.
  unfold Job.filters, Spec.job_triggered, Spec.substring_match,
    Spec.numeric_threshold, Spec.boolean_flag.
  destruct (obj_get data "title") as [title|];
    [destruct (truthy (Some title))|];
    destruct (truthy (obj_get data "minSalary")
              && Number_isInteger (ToNumber (obj_get data "minSalary")));
    destruct (strict_eq_str (obj_get data "hasEquity") "true");
    reflexivity.
Qed.

(** [Company.filters] is the where clause of the company predicate table. *)
Lemma Company_filters_refines data :
  Company.filters Number_toString data
  = Spec.where_clause (Spec.company_triggered Number_toString data).
Proof.
  unfold Company.filters, Spec.company_triggered, Spec.substring_match,
    Spec.numeric_threshold.
  destruct (obj_get data "name") as [name|];
    [destruct (truthy (Some name))|];
    destruct (truthy (obj_get data "minEmployees")
              && Number_isInteger (ToNumber (obj_get data "minEmployees")));
    destruct (truthy (obj_get data "maxEmployees")
              && Number_isInteger (ToNumber (obj_get data "maxEmployees")));
    reflexivity.
Qed.

Lemma where_clause_lengths (triggered : list (string * jsval)) :
  length (Spec.where_clause triggered).1 = length triggered
  ∧ length (Spec.where_clause triggered).2 = length triggered.
Proof. unfold Spec.where_clause. cbn. by rewrite length_imap, length_fmap. Qed.

Lemma where_clause_app (t1 t2 : list (string * jsval)) :
  Spec.where_clause (t1 ++ t2)
  = ((Spec.where_clause t1).1
     ++ imap (λ i p, p.1 +:+ "$" +:+ pretty (length t1 + i + 1) +:+ " ") t2,
     (Spec.where_clause t1).2 ++ t2.*2).
Proof. unfold Spec.where_clause. cbn. by rewrite imap_app, fmap_app. Qed.

Lemma where_clause_snoc (t : list (string * jsval)) (p : string * jsval) :
  Spec.where_clause (t ++ [p])
  = ((Spec.where_clause t).1
     ++ [p.1 +:+ "$" +:+ pretty (length (Spec.where_clause t).2 + 1) +:+ " "],
     (Spec.where_clause t).2 ++ [p.2]).
Proof.
  rewrite where_clause_app. cbn [imap fmap list_fmap].
  by rewrite (proj2 (where_clause_lengths t)), Nat.add_0_r.
Qed.

Lemma obj_get_delete_eq data k : obj_get (obj_delete data k) k = None.
Proof.
  unfold obj_delete. induction data as [|[k' v] data IH]; [done|].
  rewrite filter_cons. cbn. case_decide as Hk; [|done].
  cbn. destruct (String.eqb_spec k' k); [done | apply IH].
Qed.

Lemma obj_get_delete_ne data k k' :
  k ≠ k' → obj_get (obj_delete data k) k' = obj_get data k'.
Proof.
  intros Hne. unfold obj_delete. induction data as [|[k0 v] data IH]; [done|].
  rewrite filter_cons. cbn. case_decide as Hk; cbn.
  - destruct (String.eqb_spec k0 k'); [done | apply IH].
  - subst k0.
    destruct (String.eqb_spec k k'); [done | apply IH].
Qed.

Lemma substring_match_sublist comparison raw :
  sublist (Spec.substring_match Number_toString comparison raw).*1 [comparison].
Proof.
  unfold Spec.substring_match. destruct raw as [v|]; [destruct (truthy _)|];
    cbn; repeat constructor.
Qed.

Lemma numeric_threshold_sublist comparison raw :
  sublist (Spec.numeric_threshold comparison raw).*1 [comparison].
Proof. unfold Spec.numeric_threshold. destruct (_ && _); cbn; repeat constructor. Qed.

Lemma boolean_flag_sublist comparison raw :
  sublist (Spec.boolean_flag comparison raw).*1 [comparison].
Proof. unfold Spec.boolean_flag. destruct (strict_eq_str _ _); cbn; repeat constructor. Qed.

End filter_facts.

(** C3 fails as stated: for the filter [{title: "job1"}] the clause of
    [Job.findAll] names the column [title] and has no double quote at all;
    its only fragment does not start with a quoted identifier. *)
Lemma C3_counterexample :
  Job.queryString (λ _, EmptyString) [("title", JStr "job1")]
  = "WHERE title ILIKE $1  ORDER BY title"
  ∧ String.index 0 dq "WHERE title ILIKE $1  ORDER BY title" = None
  ∧ (Job.filters (λ _, EmptyString) [("title", JStr "job1")]).1 = ["title ILIKE $1 "]
  ∧ ¬ ∃ column rest, "title ILIKE $1 " = dq +:+ column +:+ dq +:+ rest.
Proof.
  split; [by vm_compute|]. split; [by vm_compute|]. split; [by vm_compute|].
  intros (column & rest & H). cbn in H. discriminate H.
Qed.

(** C3, amended. The clause of [sqlForPartialUpdate] is made of one
    fragment per field and nothing else, joined with [", "]: at position
    [i] the column identifier between double quotes followed by [=$(i+1)];
    its text is the same for every record with the same field names,
    whatever the values, which go to the value array only. The filter
    composition of [Job.findAll] and [Company.findAll] emits a sublist of a
    fixed table of comparisons on bare, unquoted column identifiers, in the
    order of the table, each followed by its placeholder, numbered from one
    and increasing by one in emission order, with one bound value each; the
    clause text is determined by the comparisons emitted. *)
Theorem C3_clause_text_shape (Number_toString : number → string) :
  (∀ (data : object) (jsToSql : gmap string string),
     data ≠ [] →
     ∃ fragments,
       sqlForPartialUpdate data jsToSql
       = Return {| setCols := join ", " fragments; values := Object_values data |}
       ∧ length fragments = length data
       ∧ (∀ i k v, data !! i = Some (k, v) →
            fragments !! i
            = Some (dq +:+ column jsToSql k +:+ dq +:+ "=$" +:+ pretty (i + 1)))
       ∧ (∀ data' : object,
            Object_keys data' = Object_keys data →
            sqlForPartialUpdate data' jsToSql
            = Return {| setCols := join ", " fragments;
                        values := Object_values data' |}))
  ∧ (∀ data : object,
       ∃ comparisons,
         sublist comparisons ["title ILIKE "; "salary >= "; "equity >= "]
         ∧ (Job.filters Number_toString data).1
           = imap (λ i c, c +:+ "$" +:+ pretty (i + 1) +:+ " ") comparisons
         ∧ length (Job.filters Number_toString data).2 = length comparisons
         ∧ Job.queryString Number_toString data
           = match comparisons with
             | [] => " ORDER BY title"
             | _ => "WHERE "
                    +:+ join "AND "
                          (imap (λ i c, c +:+ "$" +:+ pretty (i + 1) +:+ " ") comparisons)
                    +:+ " ORDER BY title"
             end)
  ∧ (∀ data : object,
       ∃ comparisons,
         sublist comparisons ["name ILIKE "; "num_employees >= "; "num_employees <= "]
         ∧ (Company.filters Number_toString data).1
           = imap (λ i c, c +:+ "$" +:+ pretty (i + 1) +:+ " ") comparisons
         ∧ length (Company.filters Number_toString data).2 = length comparisons
         ∧ Company.queryString Number_toString data
           = match comparisons with
             | [] => " ORDER BY name"
             | _ => "WHERE "
                    +:+ join "AND "
                          (imap (λ i c, c +:+ "$" +:+ pretty (i + 1) +:+ " ") comparisons)
                    +:+ " ORDER BY name"
             end).
Proof.
  split; [|split].
  - intros data jsToSql Hne.
    exists (cols (Object_keys data) jsToSql).
    split; [by apply sqlForPartialUpdate_nonempty|].
    split; [by rewrite length_cols, length_Object_keys|]. split.
    + intros i k v Hi. apply cols_lookup. by eapply Object_keys_lookup.
    + intros data' Hkeys. rewrite <- Hkeys.
      apply sqlForPartialUpdate_nonempty. intros ->. by destruct data.
  - intros data. exists (Spec.job_triggered Number_toString data).*1.
    split.
    { unfold Spec.job_triggered. rewrite !fmap_app.
      apply (sublist_app _ [_] _ [_; _]);
        [apply substring_match_sublist|].
      apply (sublist_app _ [_] _ [_]);
        [apply numeric_threshold_sublist | apply boolean_flag_sublist]. }
    unfold Job.queryString. rewrite Job_filters_refines.
    unfold Spec.where_clause. cbn [fst snd].
    rewrite imap_fmap, !length_fmap. split; [done|]. split; [done|].
    destruct (Spec.job_triggered Number_toString data); reflexivity.
  - intros data. exists (Spec.company_triggered Number_toString data).*1.
    split.
    { unfold Spec.company_triggered. rewrite !fmap_app.
      apply (sublist_app _ [_] _ [_; _]);
        [apply substring_match_sublist|].
      apply (sublist_app _ [_] _ [_]); apply numeric_threshold_sublist. }
    unfold Company.queryString. rewrite Company_filters_refines.
    unfold Spec.where_clause. cbn [fst snd].
    rewrite imap_fmap, !length_fmap. split; [done|]. split; [done|].
    destruct (Spec.company_triggered Number_toString data); reflexivity.
Qed.

Lemma C3_witness :
  ∃ fragments,
    sqlForPartialUpdate [("firstName", JStr "Bob"); ("email", JStr "new@email.com")]
                        User.jsToSql
    = Return {| setCols := join ", " fragments;
                values := [JStr "Bob"; JStr "new@email.com"] |}
    ∧ length fragments = 2
    ∧ (∀ i k v,
         [("firstName", JStr "Bob"); ("email", JStr "new@email.com")] !! i = Some (k, v) →
         fragments !! i
         = Some (dq +:+ column User.jsToSql k +:+ dq +:+ "=$" +:+ pretty (i + 1)))
    ∧ (∀ data' : object,
         Object_keys data' = ["firstName"; "email"] →
         sqlForPartialUpdate data' User.jsToSql
         = Return {| setCols := join ", " fragments; values := Object_values data' |}).
Proof.
  apply (proj1 (C3_clause_text_shape (λ _, EmptyString))
           [("firstName", JStr "Bob"); ("email", JStr "new@email.com")] User.jsToSql).
  discriminate.
Defined.



(** C6. A threshold whose raw value does not convert to an integer is left
    out: the fragments and values are those of the same filter without that
    entry, for [minSalary] of jobs and for [minEmployees] and [maxEmployees]
    of companies. The composition has no error outcome: when a search
    with a filter object throws, the query gave no row. The filter
    [{minSalary: "nope"}] gives no fragment, no value and a statement with
    no [WHERE] clause. *)
Theorem C6_non_integer_threshold_dropped
    (Number_toString : number → string) (data : object) :
  (Number_isInteger (ToNumber (obj_get data "minSalary")) = false →
   Job.filters Number_toString data
   = Job.filters Number_toString (obj_delete data "minSalary"))
  ∧ (Number_isInteger (ToNumber (obj_get data "minEmployees")) = false →
     Company.filters Number_toString data
     = Company.filters Number_toString (obj_delete data "minEmployees"))
  ∧ (Number_isInteger (ToNumber (obj_get data "maxEmployees")) = false →
     Company.filters Number_toString data
     = Company.filters Number_toString (obj_delete data "maxEmployees"))
  ∧ (∀ (db_query : Db) (e : error),
       Job.findAll Number_toString db_query (Some data) = Throw e →
       db_query (Job.baseQuery +:+ Job.queryString Number_toString data)
                (Some (Job.filters Number_toString data).2) = [])
  ∧ (∀ (db_query : Db) (e : error),
       Company.findAll Number_toString db_query (Some data) = Throw e →
       db_query (Company.baseQuery +:+ Company.queryString Number_toString data)
                (Some (Company.filters Number_toString data).2) = [])
  ∧ Number_isInteger (ToNumber (Some (JStr "nope"))) = false
  ∧ Job.filters Number_toString [("minSalary", JStr "nope")] = ([], [])
  ∧ Job.findAll_statement Number_toString (Some [("minSalary", JStr "nope")])
    = (Job.baseQuery +:+ " ORDER BY title", Some []).
Proof.
  split; [|split; [|split; [|split; [|split]]]].
  - intros H. rewrite !Job_filters_refines. unfold Spec.job_triggered.
    rewrite obj_get_delete_eq, !obj_get_delete_ne by done.
    unfold Spec.numeric_threshold. rewrite H. by rewrite andb_false_r.
  - intros H. rewrite !Company_filters_refines. unfold Spec.company_triggered.
    rewrite obj_get_delete_eq, !obj_get_delete_ne by done.
    unfold Spec.numeric_threshold at 1 3. rewrite H. by rewrite andb_false_r.
  - intros H. rewrite !Company_filters_refines. unfold Spec.company_triggered.
    rewrite obj_get_delete_eq, !obj_get_delete_ne by done.
    unfold Spec.numeric_threshold at 2 4. rewrite H. by rewrite andb_false_r.
  - intros db_query e. unfold Job.findAll, Job.findAll_statement.
    by destruct (db_query _ _).
  - intros db_query e. unfold Company.findAll, Company.findAll_statement.
    by destruct (db_query _ _).
  - by vm_compute.
Qed.

Lemma C6_witness :
  Job.filters (λ _, EmptyString) [("title", JStr "job"); ("minSalary", JStr "1.5")]
  = Job.filters (λ _, EmptyString)
      (obj_delete [("title", JStr "job"); ("minSalary", JStr "1.5")] "minSalary").
Proof.
  apply (proj1 (C6_non_integer_threshold_dropped (λ _, EmptyString)
                  [("title", JStr "job"); ("minSalary", JStr "1.5")])).
  reflexivity.
Defined.

(** C7. The [hasEquity] filter triggers exactly when the raw value is the
    string [true]: the fragment [equity >= $n] and the bound value zero then
    come after the fragments and values of the other filters, [n] being the
    position of the zero in the value array; for any other value, the
    string [false] included, the fragments and values are those of the
    other filters alone. *)
Theorem C7_has_equity_flag (Number_toString : number → string) (data : object) :
  let others := Job.filters Number_toString (obj_delete data "hasEquity") in
  (obj_get data "hasEquity" = Some (JStr "true") →
   Job.filters Number_toString data
   = (others.1 ++ ["equity >= $" +:+ pretty (length others.2 + 1) +:+ " "],
      others.2 ++ [JNum (of_Z 0)]))
  ∧ (obj_get data "hasEquity" ≠ Some (JStr "true") →
     Job.filters Number_toString data = others)
  ∧ Job.filters Number_toString [("hasEquity", JStr "true")]
    = (["equity >= $1 "], [JNum (of_Z 0)])
  ∧ Job.filters Number_toString [("hasEquity", JStr "false")] = ([], [])
  ∧ Job.filters Number_toString [("hasEquity", JBool true)] = ([], []).
Proof.
  cbv zeta. rewrite !Job_filters_refines. unfold Spec.job_triggered.
  rewrite obj_get_delete_eq, !obj_get_delete_ne by done.
  rewrite !(assoc_L (++)).
  set (t := Spec.substring_match _ _ _ ++ Spec.numeric_threshold _ _).
  unfold Spec.boolean_flag, strict_eq_str.
  rewrite (bool_decide_eq_false_2 (None = _)) by done. rewrite app_nil_r.
  split; [|split].
  - intros ->. rewrite bool_decide_eq_true_2 by done. apply where_clause_snoc.
  - intros Hne. rewrite bool_decide_eq_false_2 by done. by rewrite app_nil_r.
  - by vm_compute.
Qed.

Lemma C7_witness :
  Job.filters (λ _, EmptyString) [("title", JStr "job"); ("hasEquity", JStr "true")]
  = ((Job.filters (λ _, EmptyString)
        (obj_delete [("title", JStr "job"); ("hasEquity", JStr "true")] "hasEquity")).1
     ++ ["equity >= $"
         +:+ pretty
               (length (Job.filters (λ _, EmptyString)
                          (obj_delete [("title", JStr "job"); ("hasEquity", JStr "true")]
                                      "hasEquity")).2 + 1)
         +:+ " "],
     (Job.filters (λ _, EmptyString)
        (obj_delete [("title", JStr "job"); ("hasEquity", JStr "true")] "hasEquity")).2
     ++ [JNum (of_Z 0)]).
Proof.
  apply (proj1 (C7_has_equity_flag (λ _, EmptyString)
                  [("title", JStr "job"); ("hasEquity", JStr "true")])).
  reflexivity.
Defined.

(** ** Properties of the update and search operations *)

Section model_facts.
Implicit Types (data : object).

Lemma length_obj_set data k v v' :
  obj_get data k = Some v → length (obj_set data k v') = length data.
Proof.
  induction data as [|[k0 v0] data IH]; [done|]. cbn.
  destruct (String.eqb k0 k); [done|]. intros H. cbn. by rewrite IH.
Qed.

Lemma length_hash_password bcrypt_hash BCRYPT_WORK_FACTOR data :
  length (User.hash_password bcrypt_hash BCRYPT_WORK_FACTOR data) = length data.
Proof.
  unfold User.hash_password.
  destruct (obj_get data "password") as [password|] eqn:Hpw; [|done].
  destruct (truthy (Some password)); [|done]. by eapply length_obj_set.
Qed.

Lemma string_app_assoc (s1 s2 s3 : string) :
  (s1 +:+ s2) +:+ s3 = s1 +:+ (s2 +:+ s3).
Proof.
  induction s1 as [|c s1 IH]; [done|].
  change (String c ((s1 +:+ s2) +:+ s3) = String c (s1 +:+ (s2 +:+ s3))).
  by rewrite IH.
Qed.

Lemma nonempty_length data : data ≠ [] ↔ length data ≠ 0.
Proof. destruct data; cbn; split; congruence. Qed.

Lemma User_update_statement_nonempty bcrypt_hash BCRYPT_WORK_FACTOR key data :
  data ≠ [] →
  User.update_statement bcrypt_hash BCRYPT_WORK_FACTOR key data
  = Return (User.querySql
              (join ", " (cols (Object_keys
                                  (User.hash_password bcrypt_hash BCRYPT_WORK_FACTOR data))
                               User.jsToSql))
              ("$" +:+ pretty (length data + 1)),
            Object_values (User.hash_password bcrypt_hash BCRYPT_WORK_FACTOR data)
            ++ [key]).
Proof.
  intros Hne. unfold User.update_statement.
  rewrite sqlForPartialUpdate_nonempty.
  - by rewrite length_Object_values, length_hash_password.
  - apply nonempty_length. rewrite length_hash_password. by apply nonempty_length.
Qed.

Lemma Job_update_statement_nonempty key data :
  data ≠ [] →
  Job.update_statement key data
  = Return (Job.querySql (join ", " (cols (Object_keys data) Job.jsToSql))
                         ("$" +:+ pretty (length data + 1)),
            Object_values data ++ [key]).
Proof.
  intros Hne. unfold Job.update_statement.
  rewrite sqlForPartialUpdate_nonempty by done. by rewrite length_Object_values.
Qed.

Lemma Company_update_statement_nonempty key data :
  data ≠ [] →
  Company.update_statement key data
  = Return (Company.querySql (join ", " (cols (Object_keys data) Company.jsToSql))
                             ("$" +:+ pretty (length data + 1)),
            Object_values data ++ [key]).
Proof.
  intros Hne. unfold Company.update_statement.
  rewrite sqlForPartialUpdate_nonempty by done. by rewrite length_Object_values.
Qed.

End model_facts.

(** C8. For a record of [N] fields, [N] at least one, each of the three
    update operations gets [N] values from [sqlForPartialUpdate] (for a
    user, after a password has been replaced by its hash), writes the
    placeholder [$(N+1)] for the row key in the [WHERE] clause, and hands to
    [db.query] these [N] values in order followed by the row key. *)
Theorem C8_row_key_after_values
    (Number_toString : number → string)
    (bcrypt_hash : jsval → number → jsval) (BCRYPT_WORK_FACTOR : number)
    (db_query : Db) (key : jsval) (data : object) :
  data ≠ [] →
  (∃ setCols vals,
     sqlForPartialUpdate (User.hash_password bcrypt_hash BCRYPT_WORK_FACTOR data)
                         User.jsToSql
     = Return {| setCols := setCols; values := vals |}
     ∧ length vals = length data
     ∧ User.update_statement bcrypt_hash BCRYPT_WORK_FACTOR key data
       = Return (User.querySql setCols ("$" +:+ pretty (length data + 1)), vals ++ [key])
     ∧ (∃ before after,
          User.querySql setCols ("$" +:+ pretty (length data + 1))
          = before +:+ "WHERE username = $" +:+ pretty (length data + 1) +:+ after)
     ∧ User.update Number_toString bcrypt_hash BCRYPT_WORK_FACTOR db_query key data
       = match db_query (User.querySql setCols ("$" +:+ pretty (length data + 1)))
                        (Some (vals ++ [key])) !! 0 with
         | None => Throw (NotFoundError ("No user: " +:+ ToString Number_toString key))
         | Some user => Return (obj_delete user "password")
         end)
  ∧ (∃ setCols vals,
       sqlForPartialUpdate data Job.jsToSql
       = Return {| setCols := setCols; values := vals |}
       ∧ vals = Object_values data ∧ length vals = length data
       ∧ Job.update_statement key data
         = Return (Job.querySql setCols ("$" +:+ pretty (length data + 1)), vals ++ [key])
       ∧ (∃ before after,
            Job.querySql setCols ("$" +:+ pretty (length data + 1))
            = before +:+ "WHERE id = $" +:+ pretty (length data + 1) +:+ after)
       ∧ Job.update Number_toString db_query key data
         = match db_query (Job.querySql setCols ("$" +:+ pretty (length data + 1)))
                          (Some (vals ++ [key])) !! 0 with
           | None => Throw (NotFoundError ("No job with ID '"
                                           +:+ ToString Number_toString key +:+ "'"))
           | Some job => Return job
           end)
  ∧ (∃ setCols vals,
       sqlForPartialUpdate data Company.jsToSql
       = Return {| setCols := setCols; values := vals |}
       ∧ vals = Object_values data ∧ length vals = length data
       ∧ Company.update_statement key data
         = Return (Company.querySql setCols ("$" +:+ pretty (length data + 1)),
                   vals ++ [key])
       ∧ (∃ before after,
            Company.querySql setCols ("$" +:+ pretty (length data + 1))
            = before +:+ "WHERE handle = $" +:+ pretty (length data + 1) +:+ after)
       ∧ Company.update Number_toString db_query key data
         = match db_query (Company.querySql setCols ("$" +:+ pretty (length data + 1)))
                          (Some (vals ++ [key])) !! 0 with
           | None => Throw (NotFoundError ("No company: " +:+ ToString Number_toString key))
           | Some company => Return company
           end).
Proof.
  intros Hne.
  assert (User.hash_password bcrypt_hash BCRYPT_WORK_FACTOR data ≠ []) as Hne'.
  { apply nonempty_length. rewrite length_hash_password. by apply nonempty_length. }
  split; [|split].
  - eexists _, _. split; [by apply sqlForPartialUpdate_nonempty|].
    split; [by rewrite length_Object_values, length_hash_password|].
    split; [by apply User_update_statement_nonempty|]. split.
    + unfold User.querySql.
      exists ("UPDATE users " +:+ nl +:+ "                      SET "
              +:+ join ", " (cols (Object_keys
                                     (User.hash_password bcrypt_hash BCRYPT_WORK_FACTOR data))
                                  User.jsToSql)
              +:+ " " +:+ nl +:+ "                      ").
      eexists. rewrite !string_app_assoc. reflexivity.
    + unfold User.update. by rewrite User_update_statement_nonempty.
  - eexists _, _. split; [by apply sqlForPartialUpdate_nonempty|].
    split; [done|]. split; [apply length_Object_values|].
    split; [by apply Job_update_statement_nonempty|]. split.
    + unfold Job.querySql.
      exists ("UPDATE jobs " +:+ nl +:+ "                      SET "
              +:+ join ", " (cols (Object_keys data) Job.jsToSql)
              +:+ " " +:+ nl +:+ "                      ").
      eexists. rewrite !string_app_assoc. reflexivity.
    + unfold Job.update. by rewrite Job_update_statement_nonempty.
  - eexists _, _. split; [by apply sqlForPartialUpdate_nonempty|].
    split; [done|]. split; [apply length_Object_values|].
    split; [by apply Company_update_statement_nonempty|]. split.
    + unfold Company.querySql.
      exists ("UPDATE companies " +:+ nl +:+ "                      SET "
              +:+ join ", " (cols (Object_keys data) Company.jsToSql)
              +:+ " " +:+ nl +:+ "                      ").
      eexists. rewrite !string_app_assoc. reflexivity.
    + unfold Company.update. by rewrite Company_update_statement_nonempty.
Qed.

Lemma C8_witness :
  ∃ setCols vals,
    sqlForPartialUpdate
      (User.hash_password (λ _ _, JStr "$2b$hash") (of_Z 12)
         [("firstName", JStr "Bob"); ("password", JStr "secret")])
      User.jsToSql
    = Return {| setCols := setCols; values := vals |}
    ∧ length vals = 2
    ∧ User.update_statement (λ _ _, JStr "$2b$hash") (of_Z 12) (JStr "u1")
        [("firstName", JStr "Bob"); ("password", JStr "secret")]
      = Return (User.querySql setCols ("$" +:+ pretty (2 + 1)), vals ++ [JStr "u1"])
    ∧ (∃ before after,
         User.querySql setCols ("$" +:+ pretty (2 + 1))
         = before +:+ "WHERE username = $" +:+ pretty (2 + 1) +:+ after)
    ∧ User.update (λ _, EmptyString) (λ _ _, JStr "$2b$hash") (of_Z 12) (λ _ _, [])
        (JStr "u1") [("firstName", JStr "Bob"); ("password", JStr "secret")]
      = match (λ _ _, []) (User.querySql setCols ("$" +:+ pretty (2 + 1)))
                          (Some (vals ++ [JStr "u1"])) !! 0 with
        | None => Throw (NotFoundError ("No user: " +:+ ToString (λ _, EmptyString) (JStr "u1")))
        | Some user => Return (obj_delete user "password")
        end.
Proof.
  apply (proj1 (C8_row_key_after_values
                  (λ _, EmptyString) (λ _ _, JStr "$2b$hash") (of_Z 12) (λ _ _, [])
                  (JStr "u1") [("firstName", JStr "Bob"); ("password", JStr "secret")]
                  ltac:(discriminate))).
Defined.

Section outcome_facts.
Context (Number_toString : number → string) (db_query : Db).
Implicit Types (data : object).

Lemma template_object_plain data :
  obj_get data "toString" = None → template_object data = Return "[object Object]".
Proof. unfold template_object. by intros ->. Qed.

Lemma template_object_own data :
  is_Some (obj_get data "toString") →
  template_object data = Throw (TypeError "Cannot convert object to primitive value").
Proof. unfold template_object. by intros [v ->]. Qed.

(** The outcome of a search with a filter object, from the rows. *)
Lemma Job_findAll_outcome data :
  Job.findAll Number_toString db_query (Some data)
  = let rows := db_query (Job.baseQuery +:+ Job.queryString Number_toString data)
                         (Some (Job.filters Number_toString data).2) in
    if (length rows =? 0)%nat
    then match template_object data with
         | Return text => Throw (NotFoundError ("No jobs found matching " +:+ text))
         | Throw e => Throw e
         end
    else Return rows.
Proof. reflexivity. Qed.

Lemma Company_findAll_outcome data :
  Company.findAll Number_toString db_query (Some data)
  = let rows := db_query (Company.baseQuery +:+ Company.queryString Number_toString data)
                         (Some (Company.filters Number_toString data).2) in
    if (length rows =? 0)%nat
    then match template_object data with
         | Return text => Throw (NotFoundError ("No companies found matching " +:+ text))
         | Throw e => Throw e
         end
    else Return rows.
Proof. reflexivity. Qed.

End outcome_facts.




(** ** Decimal digits and the Number they denote *)

Section number_facts.

Lemma string_app_cons c (s t : string) : String c s +:+ t = String c (s +:+ t).
Proof. reflexivity. Qed.

Lemma string_app_nil_r (t : string) : t +:+ EmptyString = t.
Proof. induction t as [|a t IH]; [done|]. by rewrite string_app_cons, IH. Qed.

Lemma digit_char (c : ascii) :
  is_digit 10 c = true →
  is_space c = false
  ∧ (48 ≤ code c ≤ 57)%Z
  ∧ digit_of c = Some (code c - 48)%Z.
Proof.
  destruct c as [[] [] [] [] [] [] [] []]; vm_compute; intros H;
    try discriminate H; repeat split; discriminate.
Qed.

Lemma span_digits_all_cons base c s :
  span_digits base (String c s) = (String c s, EmptyString) →
  is_digit base c = true ∧ span_digits base s = (s, EmptyString).
Proof.
  cbn. destruct (is_digit base c); [|discriminate].
  destruct (span_digits base s) as [ds r]. intros [= -> ->]. done.
Qed.

Lemma span_digits_app base t ds r :
  span_digits base t = (ds, r) → t = ds +:+ r.
Proof.
  revert ds r. induction t as [|c t IH]; intros ds r; cbn.
  - by intros [= <- <-].
  - destruct (is_digit base c); [|by intros [= <- <-]].
    destruct (span_digits base t) as [ds' r'] eqn:Ht.
    intros [= <- <-]. rewrite string_app_cons. f_equal. by apply IH.
Qed.

Lemma all_digits_inv base s v :
  all_digits base s = Some v →
  s ≠ EmptyString
  ∧ span_digits base s = (s, EmptyString)
  ∧ v = digits_value base 0 s.
Proof.
  unfold all_digits.
  destruct (span_digits base s) as [ds r] eqn:Hs.
  destruct ds as [|c ds]; [discriminate|]. destruct r; [|discriminate].
  intros [= <-]. apply span_digits_app in Hs as Hs'.
  rewrite string_app_nil_r in Hs'. subst s. done.
Qed.

(** Reversal, as [trim] uses it. *)
Lemma rev_app_rev_app (s1 s2 s3 : string) :
  String.rev_app (String.rev_app s1 s2) s3 = String.rev_app s2 (s1 +:+ s3).
Proof.
  revert s2 s3. induction s1 as [|a s1 IH]; intros s2 s3; [done|].
  cbn [String.rev_app]. rewrite IH. reflexivity.
Qed.

Lemma rev_involutive (s : string) : String.rev (String.rev s) = s.
Proof.
  unfold String.rev. rewrite rev_app_rev_app. cbn [String.rev_app].
  apply string_app_nil_r.
Qed.

Lemma skip_spaces_rev_app (s1 s2 : string) :
  span_digits 10 s1 = (s1, EmptyString) →
  skip_spaces s2 = s2 →
  skip_spaces (String.rev_app s1 s2) = String.rev_app s1 s2.
Proof.
  revert s2. induction s1 as [|c s1 IH]; intros s2 Hd Hs2; [done|].
  apply span_digits_all_cons in Hd as [Hc Hd].
  cbn [String.rev_app]. apply IH; [done|].
  cbn. by rewrite (proj1 (digit_char c Hc)).
Qed.

Lemma trim_digits (s : string) :
  span_digits 10 s = (s, EmptyString) → trim s = s.
Proof.
  intros Hd. unfold trim.
  assert (skip_spaces s = s) as ->.
  { destruct s as [|c s]; [done|].
    apply span_digits_all_cons in Hd as [Hc _].
    cbn. by rewrite (proj1 (digit_char c Hc)). }
  unfold String.rev at 2. rewrite skip_spaces_rev_app by done.
  apply rev_involutive.
Qed.

Lemma digits_value_nonneg (s : string) (acc : Z) :
  (0 ≤ acc)%Z → (0 ≤ digits_value 10 acc s)%Z.
Proof.
  revert acc. induction s as [|c s IH]; intros acc Hacc; [done|].
  cbn. apply IH. unfold digit_of.
  repeat case_match; cbn; lia.
Qed.

(** A string of decimal digits converts to the Number of its value. *)
Lemma StringToNumber_digits (s : string) (v : Z) :
  all_digits 10 s = Some v → StringToNumber s = of_Z v ∧ (0 ≤ v)%Z.
Proof.
  intros Hall. pose proof Hall as Hall'.
  apply all_digits_inv in Hall as (Hne & Hd & ->).
  split; [|by apply digits_value_nonneg].
  unfold StringToNumber. rewrite trim_digits by done.
  destruct s as [|c s]; [done|].
  pose proof Hd as Hd'. apply span_digits_all_cons in Hd' as [Hc Hs].
  assert (non_decimal (String c s) = None) as Hnd.
  { unfold non_decimal. destruct s as [|p r]; [by repeat case_match|].
    apply span_digits_all_cons in Hs as [Hp _].
    assert ((p =? "x")%char = false ∧ (p =? "X")%char = false
            ∧ (p =? "o")%char = false ∧ (p =? "O")%char = false
            ∧ (p =? "b")%char = false ∧ (p =? "B")%char = false) as (-> & -> & -> & -> & -> & ->).
    { clear -Hp. destruct p as [[] [] [] [] [] [] [] []]; vm_compute in Hp;
        try discriminate Hp; vm_compute; done. }
    cbn. by repeat case_match. }
  assert (unsigned_decimal false (String c s)
          = of_Z (digits_value 10 0 (String c s))) as Hud.
  { unfold unsigned_decimal.
    assert (String.eqb (String c s) "Infinity" = false) as ->.
    { clear -Hc. destruct c as [[] [] [] [] [] [] [] []]; vm_compute in Hc;
        try discriminate Hc; reflexivity. }
    rewrite Hd. cbn [exponent_part].
    rewrite string_app_nil_r. cbn [String.eqb String.length].
    pose proof (digits_value_nonneg (String c s) 0 ltac:(lia)) as Hv.
    unfold of_decimal, of_Z. change (0 - Z.of_nat 0)%Z with 0%Z.
    destruct (digits_value 10 0 (String c s)) as [|p|p]; [done| |lia].
    change (10 ^ 0)%Z with 1%Z. rewrite Z.mul_1_r. reflexivity. }
  rewrite Hnd.
  destruct c as [[] [] [] [] [] [] [] []]; vm_compute in Hc;
    try discriminate Hc; exact Hud.
Qed.

End number_facts.

Section rounding_facts.
Local Open Scope Z_scope.

Lemma round_half_even_1 (n : Z) : round_half_even n 1 = n.
Proof.
  unfold round_half_even. rewrite Z.div_1_r, Z.mod_1_r. reflexivity.
Qed.

Lemma odd_part_spec (p : positive) (k : Z) (p' : positive) (e : Z) :
  odd_part p k = (p', e) →
  k ≤ e ∧ Zpos p = Zpos p' * 2 ^ (e - k) ∧ Z.odd (Zpos p') = true.
Proof.
  revert k. induction p as [p IH|p IH|]; intros k; cbn [odd_part].
  - intros [= <- <-]. rewrite Z.sub_diag. split; [lia|]. split; [lia|done].
  - intros H. apply IH in H as (Hle & Hp & Hodd).
    split; [lia|]. split; [|done].
    replace (e - k) with (Z.succ (e - (k + 1))) by lia.
    rewrite Z.pow_succ_r by lia. lia.
  - intros [= <- <-]. rewrite Z.sub_diag. split; [lia|]. split; [lia|done].
Qed.

(** Below [2^53] the Number of an integer is that integer. *)
Lemma of_Z_safe (v : Z) :
  0 ≤ v < 2 ^ 53 →
  ∃ m e, of_Z v = Finite m e ∧ 0 ≤ e ∧ m * 2 ^ e = v.
Proof.
  intros [Hv0 Hv]. destruct v as [|p|p]; [by exists 0, 0 | | lia].
  unfold of_Z, binary64.
  change (Z.log2 1) with 0. rewrite Z.sub_0_r.
  pose proof (Z.log2_nonneg (Zpos p)) as Ha0.
  assert (Z.log2 (Zpos p) < 53) as Ha by (apply Z.log2_lt_pow2; lia).
  pose proof (Z.log2_spec (Zpos p) ltac:(lia)) as [Hlo _].
  set (a := Z.log2 (Zpos p)) in *.
  assert ((0 <=? a) = true) as -> by lia.
  assert ((1 * 2 ^ a <=? Zpos p) = true) as -> by lia.
  rewrite Z.max_l by lia.
  set (k := a - 52).
  assert ((if 0 <=? k
           then round_half_even (Zpos p) (1 * 2 ^ k)
           else round_half_even (Zpos p * 2 ^ (- k)) 1)
          = Zpos p * 2 ^ (- k)) as ->.
  { destruct (Z.leb_spec 0 k).
    - assert (k = 0) as -> by lia. cbn [Z.opp]. rewrite Z.pow_0_r, !Z.mul_1_r.
      apply round_half_even_1.
    - apply round_half_even_1. }
  assert ((971 <? k) = false) as -> by lia.
  assert ((k =? 971) = false) as -> by lia.
  cbn [orb andb].
  assert (0 < 2 ^ (- k)) as Hpow by (apply Z.pow_pos_nonneg; lia).
  destruct (Zpos p * 2 ^ (- k)) as [|q|q] eqn:Hq; [lia| |lia].
  destruct (odd_part q k) as [q' e] eqn:Hodd.
  apply odd_part_spec in Hodd as (Hle & Hqq & Hq').
  exists (Zpos q'), e.
  destruct (Z.le_gt_cases 0 e) as [He|He].
  - split; [done|]. split; [done|].
    assert (2 ^ (e - k) = 2 ^ e * 2 ^ (- k)) as Hsplit.
    { rewrite <- Z.pow_add_r by lia. f_equal; lia. }
    rewrite Hsplit in Hqq. nia.
  - exfalso.
    assert (2 ^ (- k) = 2 ^ (- e) * 2 ^ (e - k)) as Hsplit.
    { rewrite <- Z.pow_add_r by lia. f_equal; lia. }
    assert (0 < 2 ^ (e - k)) by (apply Z.pow_pos_nonneg; lia).
    assert (Zpos q' = Zpos p * 2 ^ (- e)) as Heven by nia.
    assert (2 ^ (- e) = 2 * 2 ^ (- e - 1)) as Htwo.
    { rewrite <- Z.pow_succ_r by lia. f_equal; lia. }
    rewrite Heven, Htwo in Hq'.
    rewrite Z.mul_assoc, (Z.mul_comm (Zpos p) 2), <- Z.mul_assoc in Hq'.
    rewrite Z.odd_mul in Hq'. discriminate Hq'.
Qed.

End rounding_facts.

(** ** Further properties: identifiers and thresholds written in digits *)

Section digits_facts.
Context (Number_toString : number → string).

(** A string of decimal digits below [2^53] is truthy, converts to an
    integer Number, and that Number is its value. *)
Lemma digits_threshold (s : string) (v : Z) :
  all_digits 10 s = Some v → (v < 2 ^ 53)%Z →
  ∃ m e, (0 ≤ e)%Z ∧ (m * 2 ^ e = v)%Z
         ∧ ToNumber (Some (JStr s)) = Finite m e
         ∧ Number_isInteger (ToNumber (Some (JStr s))) = true
         ∧ truthy (Some (JStr s)) = true.
Proof.
  intros Hall Hv. pose proof Hall as Hall'.
  apply StringToNumber_digits in Hall as [Hnum Hv0].
  destruct (of_Z_safe v ltac:(lia)) as (m & e & Hof & He & Hval).
  exists m, e. cbn [ToNumber]. rewrite Hnum, Hof.
  split; [done|]. split; [done|]. split; [done|]. split.
  - cbn. apply orb_true_iff. left. lia.
  - apply all_digits_inv in Hall' as (Hne & _). by destruct s.
Qed.

Lemma numeric_threshold_digits comparison (s : string) (v : Z) :
  all_digits 10 s = Some v → (v < 2 ^ 53)%Z →
  ∃ m e, (0 ≤ e)%Z ∧ (m * 2 ^ e = v)%Z
         ∧ Spec.numeric_threshold comparison (Some (JStr s))
           = [(comparison, JNum (Finite m e))].
Proof.
  intros Hall Hv.
  destruct (digits_threshold s v Hall Hv) as (m & e & He & Hval & Hnum & Hint & Htr).
  exists m, e. split; [done|]. split; [done|].
  unfold Spec.numeric_threshold. by rewrite Htr, Hint, Hnum.
Qed.

(** A triggered predicate shows in the fragments and in the values. *)
Lemma where_clause_elem (t1 t2 : list (string * jsval)) comparison value :
  value ∈ (Spec.where_clause (t1 ++ [(comparison, value)] ++ t2)).2
  ∧ (comparison +:+ "$" +:+ pretty (length t1 + 1) +:+ " ")
    ∈ (Spec.where_clause (t1 ++ [(comparison, value)] ++ t2)).1.
Proof.
  unfold Spec.where_clause. cbn [fst snd]. split.
  - rewrite !fmap_app. set_solver.
  - apply elem_of_lookup_imap. exists (length t1), (comparison, value).
    split; [done|]. rewrite lookup_app_r by done.
    by rewrite Nat.sub_diag.
Qed.

End digits_facts.

(** X1. [GET /jobs/:id] hands an id whose Number is not an integer to the
    error handler as a [BadRequestError], with no statement run; an id
    written in decimal digits, of value [v] below [2^53], is looked up by
    [Job.get] under the Number [v]. *)
Theorem get_job_checks_the_id {S : Type}
    (Number_toString : number → string)
    (db_query : string → option (list prop) → S → list object * S)
    (id : string) (s : S) :
  (Number_isInteger (StringToNumber id) = false →
   JobRoutes.get_job Number_toString db_query id s
   = (Throw (BadRequestError "Job ID must be an integer."), s))
  ∧ (∀ v : Z,
       all_digits 10 id = Some v → (v < 2 ^ 53)%Z →
       ∃ m e, (0 ≤ e)%Z ∧ (m * 2 ^ e = v)%Z
              ∧ JobRoutes.get_job Number_toString db_query id s
                = JobModel.get Number_toString db_query (JNum (Finite m e)) s).
Proof.
  unfold JobRoutes.get_job. split.
  - cbn [ToNumber]. by intros ->.
  - intros v Hall Hv.
    destruct (digits_threshold id v Hall Hv) as (m & e & He & Hval & Hnum & Hint & _).
    exists m, e. split; [done|]. split; [done|]. by rewrite Hint, Hnum.
Qed.

Lemma get_job_checks_the_id_witness :
  JobRoutes.get_job (λ _, EmptyString) (λ _ _ (s : unit), ([], s)) "4x2" tt
  = (Throw (BadRequestError "Job ID must be an integer."), tt)
  ∧ ∃ m e, (0 ≤ e)%Z ∧ (m * 2 ^ e = 42)%Z
           ∧ JobRoutes.get_job (λ _, EmptyString) (λ _ _ (s : unit), ([], s)) "42" tt
             = JobModel.get (λ _, EmptyString) (λ _ _ (s : unit), ([], s))
                 (JNum (Finite m e)) tt.
Proof.
  split.
  - apply (proj1 (get_job_checks_the_id
                    (λ _, EmptyString) (λ _ _ (s : unit), ([], s)) "4x2" tt)).
    reflexivity.
  - apply (proj2 (get_job_checks_the_id
                    (λ _, EmptyString) (λ _ _ (s : unit), ([], s)) "42" tt) 42%Z).
    + reflexivity.
    + reflexivity.
Defined.

(** X2. A threshold written in decimal digits, of value [v] below [2^53],
    always triggers its predicate: the comparison is among the fragments
    and the Number [v] among the bound values, for [minSalary] of jobs and
    for [minEmployees] and [maxEmployees] of companies. *)
Theorem digit_thresholds_are_bound
    (Number_toString : number → string) (data : object) (s : string) (v : Z) :
  all_digits 10 s = Some v → (v < 2 ^ 53)%Z →
  ∃ m e, (0 ≤ e)%Z ∧ (m * 2 ^ e = v)%Z
    ∧ (obj_get data "minSalary" = Some (JStr s) →
       JNum (Finite m e) ∈ (Job.filters Number_toString data).2
       ∧ ∃ n : nat, ("salary >= $" +:+ pretty n +:+ " ") ∈ (Job.filters Number_toString data).1)
    ∧ (obj_get data "minEmployees" = Some (JStr s) →
       JNum (Finite m e) ∈ (Company.filters Number_toString data).2
       ∧ ∃ n : nat, ("num_employees >= $" +:+ pretty n +:+ " ")
              ∈ (Company.filters Number_toString data).1)
    ∧ (obj_get data "maxEmployees" = Some (JStr s) →
       JNum (Finite m e) ∈ (Company.filters Number_toString data).2
       ∧ ∃ n : nat, ("num_employees <= $" +:+ pretty n +:+ " ")
              ∈ (Company.filters Number_toString data).1).
Proof.
  intros Hall Hv.
  destruct (numeric_threshold_digits "salary >= " s v Hall Hv)
    as (m & e & He & Hval & Hsal).
  assert (∀ comparison,
            Spec.numeric_threshold comparison (Some (JStr s))
            = [(comparison, JNum (Finite m e))]) as Hthr.
  { intros comparison. unfold Spec.numeric_threshold in Hsal |- *.
    destruct (truthy _ && Number_isInteger _); [|discriminate Hsal].
    injection Hsal as Hsal. cbn [ToNumber] in Hsal |- *. by rewrite Hsal. }
  exists m, e. split; [done|]. split; [done|]. split; [|split].
  - intros Hget. rewrite Job_filters_refines. unfold Spec.job_triggered.
    rewrite Hget, Hthr.
    pose proof (where_clause_elem
                  (Spec.substring_match Number_toString "title ILIKE "
                     (obj_get data "title"))
                  (Spec.boolean_flag "equity >= " (obj_get data "hasEquity"))
                  "salary >= " (JNum (Finite m e))) as [H1 H2].
    split; [exact H1 | eexists; exact H2].
  - intros Hget. rewrite Company_filters_refines. unfold Spec.company_triggered.
    rewrite Hget, Hthr.
    pose proof (where_clause_elem
                  (Spec.substring_match Number_toString "name ILIKE "
                     (obj_get data "name"))
                  (Spec.numeric_threshold "num_employees <= "
                     (obj_get data "maxEmployees"))
                  "num_employees >= " (JNum (Finite m e))) as [H1 H2].
    split; [exact H1 | eexists; exact H2].
  - intros Hget. rewrite Company_filters_refines. unfold Spec.company_triggered.
    rewrite Hget, Hthr.
    pose proof (where_clause_elem
                  (Spec.substring_match Number_toString "name ILIKE "
                     (obj_get data "name")
                   ++ Spec.numeric_threshold "num_employees >= "
                        (obj_get data "minEmployees"))
                  [] "num_employees <= " (JNum (Finite m e))) as [H1 H2].
    rewrite <- (assoc_L (++)) in H1, H2. rewrite app_nil_r in H1, H2.
    split; [exact H1 | eexists; exact H2].
Qed.

Lemma digit_thresholds_are_bound_witness :
  ∃ m e, (0 ≤ e)%Z ∧ (m * 2 ^ e = 70000)%Z
    ∧ JNum (Finite m e)
      ∈ (Job.filters (λ _, EmptyString)
           [("title", JStr "manager"); ("minSalary", JStr "70000")]).2.
Proof.
  destruct (digit_thresholds_are_bound (λ _, EmptyString)
              [("title", JStr "manager"); ("minSalary", JStr "70000")]
              "70000" 70000%Z eq_refl eq_refl)
    as (m & e & He & Hval & Hjob & _).
  exists m, e. split; [exact He|]. split; [exact Hval|].
  exact (proj1 (Hjob eq_refl)).
Defined.

(** ** Further properties: searches and updates *)

Section search_facts.
Context (Number_toString : number → string).
Implicit Types (data : object).

Lemma Job_filters_ext data data' :
  obj_get data "title" = obj_get data' "title" →
  obj_get data "minSalary" = obj_get data' "minSalary" →
  obj_get data "hasEquity" = obj_get data' "hasEquity" →
  Job.filters Number_toString data = Job.filters Number_toString data'.
Proof.
  intros Ht Hs He. rewrite !Job_filters_refines. unfold Spec.job_triggered.
  by rewrite Ht, Hs, He.
Qed.

Lemma Company_filters_ext data data' :
  obj_get data "name" = obj_get data' "name" →
  obj_get data "minEmployees" = obj_get data' "minEmployees" →
  obj_get data "maxEmployees" = obj_get data' "maxEmployees" →
  Company.filters Number_toString data = Company.filters Number_toString data'.
Proof.
  intros Hn Hmin Hmax. rewrite !Company_filters_refines.
  unfold Spec.company_triggered. by rewrite Hn, Hmin, Hmax.
Qed.

Lemma Job_findAll_ext (db_query : Db) data data' :
  Job.filters Number_toString data = Job.filters Number_toString data' →
  template_object data = template_object data' →
  Job.findAll Number_toString db_query (Some data)
  = Job.findAll Number_toString db_query (Some data').
Proof.
  intros H Ht. rewrite !Job_findAll_outcome. unfold Job.queryString.
  by rewrite H, Ht.
Qed.

Lemma Company_findAll_ext (db_query : Db) data data' :
  Company.filters Number_toString data = Company.filters Number_toString data' →
  template_object data = template_object data' →
  Company.findAll Number_toString db_query (Some data)
  = Company.findAll Number_toString db_query (Some data').
Proof.
  intros H Ht. rewrite !Company_findAll_outcome. unfold Company.queryString.
  by rewrite H, Ht.
Qed.

Lemma Job_statement_ext data data' :
  Job.filters Number_toString data = Job.filters Number_toString data' →
  Job.findAll_statement Number_toString (Some data)
  = Job.findAll_statement Number_toString (Some data').
Proof. intros H. unfold Job.findAll_statement, Job.queryString. by rewrite H. Qed.

Lemma Company_statement_ext data data' :
  Company.filters Number_toString data = Company.filters Number_toString data' →
  Company.findAll_statement Number_toString (Some data)
  = Company.findAll_statement Number_toString (Some data').
Proof.
  intros H. unfold Company.findAll_statement, Company.queryString. by rewrite H.
Qed.

Lemma template_object_ext data data' :
  (is_Some (obj_get data "toString") ↔ is_Some (obj_get data' "toString")) →
  template_object data = template_object data'.
Proof.
  unfold template_object. intros [H1 H2].
  destruct (obj_get data "toString") as [v|], (obj_get data' "toString") as [v'|];
    try done.
  - destruct (H1 (ex_intro _ v eq_refl)) as [? [=]].
  - destruct (H2 (ex_intro _ v' eq_refl)) as [? [=]].
Qed.

Lemma obj_get_pick_job (q : object) :
  let picked := pick ["title"; "minSalary"; "hasEquity"] q in
  obj_get picked "title" = obj_get q "title"
  ∧ obj_get picked "minSalary" = obj_get q "minSalary"
  ∧ obj_get picked "hasEquity" = obj_get q "hasEquity"
  ∧ obj_get picked "toString" = None.
Proof.
  unfold pick. cbn [omap list_omap].
  destruct (obj_get q "title"), (obj_get q "minSalary"), (obj_get q "hasEquity");
    by vm_compute.
Qed.

End search_facts.

(** X3. The filter composition reads three keys of the filter object and
    nothing else: two filter objects that agree on [title], [minSalary] and
    [hasEquity] give [Job.findAll] the same fragments, the same values and
    the same statement; likewise [name], [minEmployees] and [maxEmployees]
    for [Company.findAll]. The outcome is the same too when both objects,
    or neither, have an own [toString] property, the one other key that is
    read, and only to build the message of an empty result. *)
Theorem filters_ignore_other_keys
    (Number_toString : number → string) (db_query : Db) (data data' : object) :
  (obj_get data "title" = obj_get data' "title" →
   obj_get data "minSalary" = obj_get data' "minSalary" →
   obj_get data "hasEquity" = obj_get data' "hasEquity" →
   Job.filters Number_toString data = Job.filters Number_toString data'
   ∧ Job.findAll_statement Number_toString (Some data)
     = Job.findAll_statement Number_toString (Some data')
   ∧ ((is_Some (obj_get data "toString") ↔ is_Some (obj_get data' "toString")) →
      Job.findAll Number_toString db_query (Some data)
      = Job.findAll Number_toString db_query (Some data')))
  ∧ (obj_get data "name" = obj_get data' "name" →
     obj_get data "minEmployees" = obj_get data' "minEmployees" →
     obj_get data "maxEmployees" = obj_get data' "maxEmployees" →
     Company.filters Number_toString data = Company.filters Number_toString data'
     ∧ Company.findAll_statement Number_toString (Some data)
       = Company.findAll_statement Number_toString (Some data')
     ∧ ((is_Some (obj_get data "toString") ↔ is_Some (obj_get data' "toString")) →
        Company.findAll Number_toString db_query (Some data)
        = Company.findAll Number_toString db_query (Some data'))).
Proof.
  split; intros H1 H2 H3.
  - pose proof (Job_filters_ext Number_toString data data' H1 H2 H3) as H.
    split; [exact H|]. split; [by apply Job_statement_ext|].
    intros Hts. apply Job_findAll_ext; [exact H | by apply template_object_ext].
  - pose proof (Company_filters_ext Number_toString data data' H1 H2 H3) as H.
    split; [exact H|]. split; [by apply Company_statement_ext|].
    intros Hts. apply Company_findAll_ext; [exact H | by apply template_object_ext].
Qed.

Lemma filters_ignore_other_keys_witness :
  Job.filters (λ _, EmptyString) [("title", JStr "job1"); ("salary", JStr "1")]
  = Job.filters (λ _, EmptyString) [("title", JStr "job1")]
  ∧ Job.findAll (λ _, EmptyString) (λ _ _, [])
      (Some [("title", JStr "job1"); ("salary", JStr "1")])
    = Job.findAll (λ _, EmptyString) (λ _ _, []) (Some [("title", JStr "job1")]).
Proof.
  destruct (proj1 (filters_ignore_other_keys (λ _, EmptyString) (λ _ _, [])
                     [("title", JStr "job1"); ("salary", JStr "1")]
                     [("title", JStr "job1")])
              eq_refl eq_refl eq_refl) as (Hf & _ & Hout).
  split; [exact Hf|]. apply Hout. split; intros [v Hv]; discriminate Hv.
Defined.

(** X4. [GET /jobs] with an empty query string answers with the rows of
    the unfiltered search, whatever they are. With any query parameter the
    statement is the one [Job.findAll] composes from the query object, an
    empty result is a [NotFoundError] and never a [TypeError], and the
    outcome is that of [Job.findAll] on the query object when this has no
    own [toString] property. So when none of [title], [minSalary],
    [hasEquity] is given, the statement has no [WHERE] clause, yet an
    empty result is a [NotFoundError]. *)
Theorem get_jobs_by_query
    (Number_toString : number → string) (db_query : Db) (req_query : object) :
  (req_query = [] →
   JobRoutes.get_jobs Number_toString db_query req_query
   = Return (db_query (Job.baseQuery +:+ "ORDER BY title") None))
  ∧ (req_query ≠ [] →
     JobRoutes.get_jobs Number_toString db_query req_query
     = let rows := db_query (Job.baseQuery +:+ Job.queryString Number_toString req_query)
                            (Some (Job.filters Number_toString req_query).2) in
       if (length rows =? 0)%nat
       then Throw (NotFoundError "No jobs found matching [object Object]")
       else Return rows)
  ∧ (req_query ≠ [] →
     obj_get req_query "toString" = None →
     JobRoutes.get_jobs Number_toString db_query req_query
     = Job.findAll Number_toString db_query (Some req_query))
  ∧ (req_query ≠ [] →
     obj_get req_query "title" = None →
     obj_get req_query "minSalary" = None →
     obj_get req_query "hasEquity" = None →
     Job.findAll_statement Number_toString (Some req_query)
     = (Job.baseQuery +:+ " ORDER BY title", Some [])
     ∧ (db_query (Job.baseQuery +:+ " ORDER BY title") (Some []) = [] →
        JobRoutes.get_jobs Number_toString db_query req_query
        = Throw (NotFoundError "No jobs found matching [object Object]"))).
Proof.
  assert (req_query ≠ [] →
          JobRoutes.get_jobs Number_toString db_query req_query
          = let rows :=
              db_query (Job.baseQuery +:+ Job.queryString Number_toString req_query)
                       (Some (Job.filters Number_toString req_query).2) in
            if (length rows =? 0)%nat
            then Throw (NotFoundError "No jobs found matching [object Object]")
            else Return rows) as Hsome.
  { intros Hne. unfold JobRoutes.get_jobs.
    destruct req_query as [|kv q]; [done|].
    cbn [Object_values fmap list_fmap length Nat.eqb].
    destruct (obj_get_pick_job (kv :: q)) as (H1 & H2 & H3 & H4).
    rewrite Job_findAll_outcome. unfold Job.queryString.
    rewrite (Job_filters_ext Number_toString _ (kv :: q) H1 H2 H3).
    by rewrite template_object_plain. }
  split; [by intros ->|]. split; [exact Hsome|]. split.
  - intros Hne Hts. rewrite Hsome by done. rewrite Job_findAll_outcome.
    by rewrite template_object_plain.
  - intros Hne Ht Hs He.
    assert (Job.filters Number_toString req_query = ([], [])) as Hf.
    { rewrite (Job_filters_ext Number_toString req_query []); [done|done..]. }
    assert (Job.findAll_statement Number_toString (Some req_query)
            = (Job.baseQuery +:+ " ORDER BY title", Some [])) as Hst.
    { unfold Job.findAll_statement, Job.queryString. by rewrite Hf. }
    split; [exact Hst|].
    intros Hrows. rewrite Hsome by done. unfold Job.queryString.
    rewrite Hf. cbn [fst snd length Nat.ltb Nat.leb]. cbv zeta. by rewrite Hrows.
Qed.

Lemma get_jobs_by_query_witness :
  JobRoutes.get_jobs (λ _, EmptyString) (λ _ _, [])
    [("name", JStr "job"); ("minSalary", JStr "oknjo")]
  = Job.findAll (λ _, EmptyString) (λ _ _, [])
      (Some [("name", JStr "job"); ("minSalary", JStr "oknjo")]).
Proof.
  apply (proj1 (proj2 (proj2 (get_jobs_by_query (λ _, EmptyString) (λ _ _, [])
                                [("name", JStr "job"); ("minSalary", JStr "oknjo")])))).
  - discriminate.
  - reflexivity.
Defined.

(** X5. [Company.findAll] without a filter argument returns the rows
    whatever they are. With a filter object, any result that is not empty
    is returned; an empty result is a [NotFoundError] when the filter
    object has no own [toString] property, and a [TypeError], raised while
    the message is built, when it has one. *)
Theorem Company_findAll_empty_results
    (Number_toString : number → string) (db_query : Db) :
  Company.findAll Number_toString db_query None
  = Return (db_query (Company.baseQuery +:+ "ORDER BY name") None)
  ∧ ∀ data : object,
      let rows := db_query (Company.baseQuery +:+ Company.queryString Number_toString data)
                           (Some (Company.filters Number_toString data).2) in
      (rows = [] → obj_get data "toString" = None →
       Company.findAll Number_toString db_query (Some data)
       = Throw (NotFoundError "No companies found matching [object Object]"))
      ∧ (rows = [] → is_Some (obj_get data "toString") →
         Company.findAll Number_toString db_query (Some data)
         = Throw (TypeError "Cannot convert object to primitive value"))
      ∧ (rows ≠ [] →
         Company.findAll Number_toString db_query (Some data) = Return rows).
Proof.
  split; [reflexivity|]. intros data rows. subst rows.
  rewrite Company_findAll_outcome. cbv zeta.
  destruct (db_query _ _) as [|row rows]; cbn [length Nat.eqb].
  - split; [intros _ Hts; by rewrite template_object_plain|].
    split; [intros _ Hts; by rewrite template_object_own | done].
  - split; [done|]. split; done.
Qed.

Lemma Company_findAll_empty_results_witness :
  Company.findAll (λ _, EmptyString) (λ _ _, []) (Some [("name", JStr "nope")])
  = Throw (NotFoundError "No companies found matching [object Object]").
Proof.
  apply (proj1 (proj2 (Company_findAll_empty_results (λ _, EmptyString) (λ _ _, []))
                  [("name", JStr "nope")])).
  - reflexivity.
  - reflexivity.
Defined.

Section update_facts.
Implicit Types (data : object).

Lemma obj_get_set_eq data k v v' :
  obj_get data k = Some v → obj_get (obj_set data k v') k = Some v'.
Proof.
  induction data as [|[k0 v0] data IH]; [done|]. cbn.
  destruct (String.eqb_spec k0 k) as [->|Hne]; cbn.
  - by rewrite String.eqb_refl.
  - destruct (String.eqb_spec k0 k); [done|]. exact IH.
Qed.

Lemma obj_get_set_ne data k k' v' :
  k ≠ k' → obj_get (obj_set data k v') k' = obj_get data k'.
Proof.
  intros Hne. induction data as [|[k0 v0] data IH]; cbn.
  - destruct (String.eqb_spec k k'); done.
  - destruct (String.eqb_spec k0 k) as [->|Hk]; cbn.
    + destruct (String.eqb_spec k k'); done.
    + destruct (String.eqb_spec k0 k'); [done | exact IH].
Qed.

Lemma Object_keys_set data k v v' :
  obj_get data k = Some v → Object_keys (obj_set data k v') = Object_keys data.
Proof.
  unfold Object_keys. induction data as [|[k0 v0] data IH]; [done|]. cbn.
  destruct (String.eqb k0 k); [done|]. intros H. cbn. by rewrite IH.
Qed.

End update_facts.

(** X6. Each of the three update operations throws a [BadRequestError]
    exactly when the record has no field, then with the message [No data]
    and whatever the database holds; on a record with fields the only
    error is [NotFoundError]. *)
Theorem update_bad_request_iff_empty
    (Number_toString : number → string)
    (bcrypt_hash : jsval → number → jsval) (BCRYPT_WORK_FACTOR : number)
    (db_query : Db) (key : jsval) (data : object) (message : string) :
  (User.update Number_toString bcrypt_hash BCRYPT_WORK_FACTOR db_query key data
   = Throw (BadRequestError message)
   ↔ data = [] ∧ message = "No data")
  ∧ (Job.update Number_toString db_query key data = Throw (BadRequestError message)
     ↔ data = [] ∧ message = "No data")
  ∧ (Company.update Number_toString db_query key data = Throw (BadRequestError message)
     ↔ data = [] ∧ message = "No data").
Proof.
  split; [|split].
  - destruct data as [|kv data].
    + split; [by intros [= <-] | by intros [_ ->]].
    + unfold User.update.
      rewrite User_update_statement_nonempty by done.
      split; [by destruct (_ !! 0) | by intros [? _]].
  - destruct data as [|kv data].
    + split; [by intros [= <-] | by intros [_ ->]].
    + unfold Job.update. rewrite Job_update_statement_nonempty by done.
      split; [by destruct (_ !! 0) | by intros [? _]].
  - destruct data as [|kv data].
    + split; [by intros [= <-] | by intros [_ ->]].
    + unfold Company.update. rewrite Company_update_statement_nonempty by done.
      split; [by destruct (_ !! 0) | by intros [? _]].
Qed.

Lemma update_bad_request_iff_empty_witness :
  Job.update (λ _, EmptyString) (λ _ _, [[("id", JStr "1")]]) (JStr "1") []
  = Throw (BadRequestError "No data").
Proof.
  apply (proj2 (proj1 (proj2 (update_bad_request_iff_empty
                                (λ _, EmptyString) (λ p _, p) NaN
                                (λ _ _, [[("id", JStr "1")]]) (JStr "1") [] "No data")))).
  split; reflexivity.
Defined.

(** X7. Before the statement of [User.update] is composed, a truthy
    password is replaced, in place, by its hash: the field names and their
    order are unchanged and so is every other field. A password that is
    absent or falsy (the empty string, [null]) leaves the record as it is:
    it is bound unhashed. *)
Theorem update_hashes_truthy_password
    (bcrypt_hash : jsval → number → jsval) (BCRYPT_WORK_FACTOR : number) (data : object) :
  let hashed := User.hash_password bcrypt_hash BCRYPT_WORK_FACTOR data in
  Object_keys hashed = Object_keys data
  ∧ (∀ k, k ≠ "password" → obj_get hashed k = obj_get data k)
  ∧ (∀ password,
       obj_get data "password" = Some password → truthy (Some password) = true →
       obj_get hashed "password" = Some (bcrypt_hash password BCRYPT_WORK_FACTOR))
  ∧ (truthy (obj_get data "password") = false → hashed = data).
Proof.
  cbv zeta. unfold User.hash_password.
  destruct (obj_get data "password") as [password|] eqn:Hpw; [|done].
  destruct (truthy (Some password)) eqn:Htr.
  - split; [by eapply Object_keys_set|].
    split; [intros k Hk; by apply obj_get_set_ne|].
    split; [|done]. intros pw [= <-] _. by eapply obj_get_set_eq.
  - split; [done|]. split; [done|]. split; [|done]. intros pw [= <-]. congruence.
Qed.

Lemma update_hashes_truthy_password_witness :
  obj_get (User.hash_password (λ _ _, JStr "$2b$hash") (of_Z 12)
             [("firstName", JStr "Bob"); ("password", JStr "secret")]) "password"
  = Some (JStr "$2b$hash")
  ∧ User.hash_password (λ _ _, JStr "$2b$hash") (of_Z 12)
      [("firstName", JStr "Bob"); ("password", JStr EmptyString)]
    = [("firstName", JStr "Bob"); ("password", JStr EmptyString)].
Proof.
  split.
  - apply (proj1 (proj2 (proj2 (update_hashes_truthy_password
                                  (λ _ _, JStr "$2b$hash") (of_Z 12)
                                  [("firstName", JStr "Bob"); ("password", JStr "secret")])))
             (JStr "secret")); reflexivity.
  - apply (proj2 (proj2 (proj2 (update_hashes_truthy_password
                                  (λ _ _, JStr "$2b$hash") (of_Z 12)
                                  [("firstName", JStr "Bob");
                                   ("password", JStr EmptyString)])))).
    reflexivity.
Defined.

(** X8. What [User.update] returns never has a [password] property,
    whatever row the database gives back. *)
Theorem update_returns_no_password
    (Number_toString : number → string)
    (bcrypt_hash : jsval → number → jsval) (BCRYPT_WORK_FACTOR : number)
    (db_query : Db) (username : jsval) (data user : object) :
  User.update Number_toString bcrypt_hash BCRYPT_WORK_FACTOR db_query username data
  = Return user →
  obj_get user "password" = None.
Proof.
  unfold User.update.
  destruct (User.update_statement _ _ _ _) as [[querySql vals]|e]; [|discriminate].
  destruct (_ !! 0) as [row|]; [|discriminate].
  intros [= <-]. apply obj_get_delete_eq.
Qed.

Lemma update_returns_no_password_witness :
  obj_get [("username", JStr "u1"); ("firstName", JStr "Bob")] "password" = None.
Proof.
  apply (update_returns_no_password
           (λ _, EmptyString) (λ _ _, JStr "$2b$hash") (of_Z 12)
           (λ _ _, [[("username", JStr "u1"); ("password", JStr "$2b$hash");
                     ("firstName", JStr "Bob")]])
           (JStr "u1") [("firstName", JStr "Bob")]).
  reflexivity.
Defined.

(** ** Further properties: the operations that run several statements *)

Section conn_facts.
Context {S : Type}.
Context (db_query : string → option (list prop) → S → list object * S).

Lemma bind_query {B} text values (k : list object → Conn.Async B) (s s' : S) rows :
  db_query text values s = (rows, s') →
  Conn.bind (Conn.query db_query text values) k s = k rows s'.
Proof. intros H. unfold Conn.bind, Conn.query. by rewrite H. Qed.

Lemma bind_throw {A B} (m : Conn.Async A) (k : A → Conn.Async B) (s s' : S) e :
  m s = (Throw e, s') → Conn.bind m k s = (Throw e, s').
Proof. intros H. unfold Conn.bind. by rewrite H. Qed.

Lemma bind_return {A B} (m : Conn.Async A) (k : A → Conn.Async B) (s s' : S) a :
  m s = (Return a, s') → Conn.bind m k s = k a s'.
Proof. intros H. unfold Conn.bind. by rewrite H. Qed.

End conn_facts.

(** X9. [User.authenticate] runs one statement. A user it returns has no
    [password] property and comes from a first row whose stored password
    compares equal; every failure, an unknown username as much as a wrong
    password, throws [UnauthorizedError] with the same message. *)
Theorem authenticate_outcomes {S : Type}
    (bcrypt_compare : jsval → prop → bool)
    (db_query : string → option (list prop) → S → list object * S)
    (username password : jsval) (s : S) :
  let '(rows, s') := db_query UserModel.authenticate_sql (Some [Some username]) s in
  (UserModel.authenticate bcrypt_compare db_query username password s).2 = s'
  ∧ match (UserModel.authenticate bcrypt_compare db_query username password s).1 with
    | UserModel.User user =>
        obj_get user "password" = None
        ∧ ∃ row, rows !! 0 = Some row
                 ∧ bcrypt_compare password (obj_get row "password") = true
                 ∧ user = obj_delete row "password"
    | UserModel.UnauthorizedError message =>
        message = "Invalid username/password"
        ∧ (rows = []
           ∨ ∃ row, rows !! 0 = Some row
                    ∧ bcrypt_compare password (obj_get row "password") = false)
    end.
Proof.
  unfold UserModel.authenticate.
  destruct (db_query _ _ s) as [rows s'].
  destruct rows as [|row rows]; cbn [lookup list_lookup].
  - split; [done|]. split; [done|]. by left.
  - destruct (bcrypt_compare password (obj_get row "password")) eqn:Hcmp; cbn [fst snd].
    + split; [done|]. split; [apply obj_get_delete_eq|]. by exists row.
    + split; [done|]. split; [done|]. right. by exists row.
Qed.

(** X10. [User.get] runs one statement and throws [NotFoundError] exactly
    when it gives no row. Otherwise it returns the username it was given,
    the names, email and admin flag of the first row, and one entry of
    [jobs] per row, in row order: [jobs] is never empty. *)
Theorem User_get_outcomes {S : Type}
    (Number_toString : number → string)
    (db_query : string → option (list prop) → S → list object * S)
    (username : jsval) (s : S) :
  let '(rows, s') := db_query UserModel.get_sql (Some [Some username]) s in
  (rows = [] →
   UserModel.get Number_toString db_query username s
   = (Throw (NotFoundError ("No user: " +:+ ToString Number_toString username)), s'))
  ∧ (∀ row rest, rows = row :: rest →
       ∃ user,
         UserModel.get Number_toString db_query username s = (Return user, s')
         ∧ UserModel.username user = username
         ∧ UserModel.firstName user = obj_get row "firstName"
         ∧ UserModel.lastName user = obj_get row "lastName"
         ∧ UserModel.email user = obj_get row "email"
         ∧ UserModel.isAdmin user = obj_get row "isAdmin"
         ∧ length (UserModel.jobs user) = length rows
         ∧ ∀ i r, rows !! i = Some r →
             UserModel.jobs user !! i = Some (obj_get r "jobId")).
Proof.
  destruct (db_query _ _ s) as [rows s'] eqn:Hq. split.
  - intros ->. unfold UserModel.get. by rewrite (bind_query _ _ _ _ s s' []).
  - intros row rest ->. unfold UserModel.get.
    rewrite (bind_query _ _ _ _ s s' (row :: rest)) by done.
    eexists. split; [reflexivity|]. cbn [UserModel.username UserModel.firstName
      UserModel.lastName UserModel.email UserModel.isAdmin UserModel.jobs].
    repeat (split; [done|]). split; [by rewrite length_fmap|].
    intros i r Hi. by rewrite list_lookup_fmap, Hi.
Qed.

Lemma User_get_outcomes_witness :
  UserModel.get (λ _, EmptyString) (λ _ _ (s : unit), ([], s)) (JStr "nope") tt
  = (Throw (NotFoundError ("No user: " +:+ "nope")), tt).
Proof.
  apply (proj1 (User_get_outcomes (λ _, EmptyString) (λ _ _ (s : unit), ([], s))
                  (JStr "nope") tt)).
  reflexivity.
Defined.

(** X11. [Company.get] runs one statement and throws [NotFoundError]
    exactly when it gives no row. A single row whose [id] is falsy gives an
    object without [jobs]; in every other case [jobs] has one entry per
    row, in row order, built from the [id], [title], [salary] and [equity]
    of the row. The handle returned is the one given. *)
Theorem Company_get_outcomes {S : Type}
    (Number_toString : number → string)
    (db_query : string → option (list prop) → S → list object * S)
    (handle : jsval) (s : S) :
  let '(rows, s') := db_query CompanyModel.get_sql (Some [Some handle]) s in
  (rows = [] →
   CompanyModel.get Number_toString db_query handle s
   = (Throw (NotFoundError ("No company: " +:+ ToString Number_toString handle)), s'))
  ∧ (∀ row rest, rows = row :: rest →
       ∃ company,
         CompanyModel.get Number_toString db_query handle s = (Return company, s')
         ∧ CompanyModel.handle company = handle
         ∧ CompanyModel.name company = obj_get row "name"
         ∧ (rest = [] ∧ truthy (obj_get row "id") = false →
            CompanyModel.jobs company = None)
         ∧ (rest ≠ [] ∨ truthy (obj_get row "id") = true →
            ∃ jobs, CompanyModel.jobs company = Some jobs
                    ∧ length jobs = length rows
                    ∧ ∀ i r, rows !! i = Some r →
                        jobs !! i
                        = Some {| CompanyModel.id := obj_get r "id";
                                  CompanyModel.title := obj_get r "title";
                                  CompanyModel.salary := obj_get r "salary";
                                  CompanyModel.equity := obj_get r "equity" |})).
Proof.
  destruct (db_query _ _ s) as [rows s'] eqn:Hq. split.
  - intros ->. unfold CompanyModel.get. by rewrite (bind_query _ _ _ _ s s' []).
  - intros row rest ->. unfold CompanyModel.get.
    rewrite (bind_query _ _ _ _ s s' (row :: rest)) by done.
    destruct rest as [|row' rest]; cbn [length Nat.eqb andb].
    + destruct (truthy (obj_get row "id")) eqn:Hid; cbn [negb];
        (eexists; split; [reflexivity|]); cbn [CompanyModel.handle CompanyModel.name
          CompanyModel.jobs]; (split; [done|]); (split; [done|]).
      * split; [by intros [_ ?]|]. intros _. eexists. split; [done|].
        split; [done|]. intros i r Hi. by rewrite list_lookup_fmap, Hi.
      * split; [done|]. by intros [?|?].
    + eexists. split; [reflexivity|]. cbn [CompanyModel.handle CompanyModel.name
        CompanyModel.jobs]. split; [done|]. split; [done|].
      split; [by intros [? _]|]. intros _. eexists. split; [done|].
      split; [by rewrite length_fmap|].
      intros i r Hi. by rewrite list_lookup_fmap, Hi.
Qed.

Lemma Company_get_outcomes_witness :
  CompanyModel.get (λ _, EmptyString) (λ _ _ (s : unit), ([], s)) (JStr "nope") tt
  = (Throw (NotFoundError ("No company: " +:+ "nope")), tt).
Proof.
  apply (proj1 (Company_get_outcomes (λ _, EmptyString) (λ _ _ (s : unit), ([], s))
                  (JStr "nope") tt)).
  reflexivity.
Defined.

(** X12. [User.applyForJob] checks in a fixed order and stops at the first
    failure, running no further statement: an existing application is a
    [BadRequestError], whether or not the user and the job exist; then an
    unknown user is the [NotFoundError] of [User.get], before the job is
    looked up; then an unknown job is the [NotFoundError] of [Job.get]. *)
Theorem applyForJob_checks_in_order {S : Type}
    (Number_toString : number → string)
    (db_query : string → option (list prop) → S → list object * S)
    (username jobId : jsval) (s : S) :
  let '(dupes, s1) :=
    db_query Application.checkForDupe_sql (Some [Some username; Some jobId]) s in
  let '(users, s2) := db_query UserModel.get_sql (Some [Some username]) s1 in
  let '(jobs, s3) := db_query JobModel.get_sql (Some [Some jobId]) s2 in
  (dupes ≠ [] →
   Application.applyForJob Number_toString db_query username jobId s
   = (Throw (BadRequestError
               (ToString Number_toString username +:+ " has already applied for job "
                +:+ ToString Number_toString jobId +:+ ".")), s1))
  ∧ (dupes = [] → users = [] →
     Application.applyForJob Number_toString db_query username jobId s
     = (Throw (NotFoundError ("No user: " +:+ ToString Number_toString username)), s2))
  ∧ (dupes = [] → users ≠ [] → jobs = [] →
     Application.applyForJob Number_toString db_query username jobId s
     = (Throw (NotFoundError
                 ("No job with id of " +:+ ToString Number_toString jobId +:+ " found.")),
        s3)).
Proof.
  destruct (db_query _ _ s) as [dupes s1] eqn:H1.
  destruct (db_query _ _ s1) as [users s2] eqn:H2.
  destruct (db_query _ _ s2) as [jobs s3] eqn:H3.
  unfold Application.applyForJob.
  rewrite (bind_query _ _ _ _ s s1 dupes) by done.
  split; [|split].
  - intros Hne. by destruct dupes.
  - intros -> ->. cbn [lookup list_lookup].
    apply bind_throw. unfold UserModel.get.
    by rewrite (bind_query _ _ _ _ s1 s2 []).
  - intros -> Hu ->. cbn [lookup list_lookup]. destruct users as [|u users]; [done|].
    erewrite bind_return;
      [|unfold UserModel.get; by rewrite (bind_query _ _ _ _ s1 s2 (u :: users))].
    apply bind_throw. unfold JobModel.get.
    by rewrite (bind_query _ _ _ _ s2 s3 []).
Qed.

Lemma applyForJob_checks_in_order_witness :
  Application.applyForJob (λ _, EmptyString)
    (λ _ _ (s : nat), ([[("jobId", JStr "1")]], Datatypes.S s)) (JStr "u1") (JStr "1") 0
  = (Throw (BadRequestError ("u1" +:+ " has already applied for job " +:+ "1" +:+ ".")), 1).
Proof.
  apply (proj1 (applyForJob_checks_in_order (λ _, EmptyString)
                  (λ _ _ (s : nat), ([[("jobId", JStr "1")]], Datatypes.S s))
                  (JStr "u1") (JStr "1") 0)).
  discriminate.
Defined.

(** X13. When there is no application yet and both the user and the job
    are found, [User.applyForJob] inserts the username with the [id] of
    the job row that [Job.get] found, not the job id it was given, and
    returns the [jobId] of the inserted row; an insert that gives no row is
    a [BadRequestError]. *)
Theorem applyForJob_inserts_found_job {S : Type}
    (Number_toString : number → string)
    (db_query : string → option (list prop) → S → list object * S)
    (username jobId : jsval) (s s1 s2 s3 : S) (user job : object)
    (users jobs : list object) :
  db_query Application.checkForDupe_sql (Some [Some username; Some jobId]) s = ([], s1) →
  db_query UserModel.get_sql (Some [Some username]) s1 = (user :: users, s2) →
  db_query JobModel.get_sql (Some [Some jobId]) s2 = (job :: jobs, s3) →
  let '(rows, s4) :=
    db_query Application.application_sql (Some [Some username; obj_get job "id"]) s3 in
  Application.applyForJob Number_toString db_query username jobId s
  = (match rows !! 0 with
     | Some application => Return (obj_get application "jobId")
     | None => Throw (BadRequestError "Could not complete application.")
     end, s4).
Proof.
  intros H1 H2 H3.
  destruct (db_query _ _ s3) as [rows s4] eqn:H4.
  unfold Application.applyForJob.
  rewrite (bind_query _ _ _ _ s s1 []) by done. cbn [lookup list_lookup].
  erewrite bind_return;
    [|unfold UserModel.get; by rewrite (bind_query _ _ _ _ s1 s2 (user :: users))].
  erewrite bind_return;
    [|unfold JobModel.get; by rewrite (bind_query _ _ _ _ s2 s3 (job :: jobs))].
  rewrite (bind_query _ _ _ _ s3 s4 rows) by done.
  by destruct (rows !! 0).
Qed.

Lemma applyForJob_inserts_found_job_witness :
  Application.applyForJob (λ _, EmptyString)
    (λ text _ (s : nat),
       (if String.eqb text Application.checkForDupe_sql then []
        else [[("id", JNum (of_Z 7)); ("jobId", JNum (of_Z 7))]], Datatypes.S s))
    (JStr "u1") (JStr "7") 0
  = (Return (Some (JNum (of_Z 7))), 4).
Proof.
  apply (applyForJob_inserts_found_job (λ _, EmptyString)
           (λ text _ (s : nat),
              (if String.eqb text Application.checkForDupe_sql then []
               else [[("id", JNum (of_Z 7)); ("jobId", JNum (of_Z 7))]], Datatypes.S s))
           (JStr "u1") (JStr "7") 0 1 2 3
           [("id", JNum (of_Z 7)); ("jobId", JNum (of_Z 7))]
           [("id", JNum (of_Z 7)); ("jobId", JNum (of_Z 7))] [] []);
    reflexivity.
Defined.

(** X14. [Job.create] first requires the company: without it the outcome
    is a [BadRequestError] and the duplicate is not even looked for. With
    it, an existing equal job is a [BadRequestError] whose message names
    the company handle only, and nothing is inserted; otherwise the job is
    inserted with the four values given and the first inserted row is
    returned. *)
Theorem Job_create_outcomes {S : Type}
    (Number_toString : number → string)
    (db_query : string → option (list prop) → S → list object * S)
    (data : object) (s : S) :
  let title := obj_get data "title" in
  let salary := obj_get data "salary" in
  let equity := obj_get data "equity" in
  let companyHandle := obj_get data "companyHandle" in
  let '(companies, s1) :=
    db_query JobModel.checkCompanyExists_sql (Some [companyHandle]) s in
  let '(dupes, s2) :=
    db_query JobModel.checkForDupe_sql (Some [title; salary; equity; companyHandle]) s1 in
  let '(rows, s3) :=
    db_query JobModel.create_sql (Some [title; salary; equity; companyHandle]) s2 in
  (companies = [] →
   JobModel.create Number_toString db_query data s
   = (Throw (BadRequestError
               ("No such company: " +:+ ToString_prop Number_toString companyHandle)), s1))
  ∧ (companies ≠ [] → dupes ≠ [] →
     JobModel.create Number_toString db_query data s
     = (Throw (BadRequestError
                 ("Duplicate job : " +:+ ToString_prop Number_toString companyHandle)), s2))
  ∧ (companies ≠ [] → dupes = [] →
     JobModel.create Number_toString db_query data s = (Return (rows !! 0), s3)).
Proof.
  cbv zeta.
  destruct (db_query _ _ s) as [companies s1] eqn:H1.
  destruct (db_query _ _ s1) as [dupes s2] eqn:H2.
  destruct (db_query _ _ s2) as [rows s3] eqn:H3.
  unfold JobModel.create.
  rewrite (bind_query _ _ _ _ s s1 companies) by done.
  split; [|split].
  - by intros ->.
  - intros Hc Hd. destruct companies as [|c companies]; [done|].
    cbn [lookup list_lookup].
    rewrite (bind_query _ _ _ _ s1 s2 dupes) by done.
    by destruct dupes.
  - intros Hc ->. destruct companies as [|c companies]; [done|].
    cbn [lookup list_lookup].
    rewrite (bind_query _ _ _ _ s1 s2 []) by done. cbn [length Nat.ltb Nat.leb].
    by rewrite (bind_query _ _ _ _ s2 s3 rows).
Qed.

Lemma Job_create_outcomes_witness :
  JobModel.create (λ _, EmptyString) (λ _ _ (s : nat), ([], Datatypes.S s))
    [("title", JStr "New"); ("companyHandle", JStr "c9")] 0
  = (Throw (BadRequestError ("No such company: " +:+ "c9")), 1).
Proof.
  apply (proj1 (Job_create_outcomes (λ _, EmptyString)
                  (λ _ _ (s : nat), ([], Datatypes.S s))
                  [("title", JStr "New"); ("companyHandle", JStr "c9")] 0)).
  reflexivity.
Defined.

(** X15. [User.register] and [Company.create] look for the key first:
    when the username or the handle is taken the outcome is a
    [BadRequestError] and nothing is inserted. Otherwise one row is
    inserted, with the fields as given except that the second value of a
    user is the hash of the password, and the first inserted row is
    returned. *)
Theorem creates_check_duplicates_first {S : Type}
    (Number_toString : number → string)
    (bcrypt_hash : prop → number → jsval) (BCRYPT_WORK_FACTOR : number)
    (db_query : string → option (list prop) → S → list object * S)
    (data : object) (s : S) :
  (let '(dupes, s1) :=
     db_query UserModel.duplicateCheck_sql (Some [obj_get data "username"]) s in
   let '(rows, s2) :=
     db_query UserModel.register_sql
       (Some [obj_get data "username";
              Some (bcrypt_hash (obj_get data "password") BCRYPT_WORK_FACTOR);
              obj_get data "firstName"; obj_get data "lastName";
              obj_get data "email"; obj_get data "isAdmin"]) s1 in
   (dupes ≠ [] →
    UserModel.register Number_toString bcrypt_hash BCRYPT_WORK_FACTOR db_query data s
    = (Throw (BadRequestError
                ("Duplicate username: "
                 +:+ ToString_prop Number_toString (obj_get data "username"))), s1))
   ∧ (dupes = [] →
      UserModel.register Number_toString bcrypt_hash BCRYPT_WORK_FACTOR db_query data s
      = (Return (rows !! 0), s2)))
  ∧ (let '(dupes, s1) :=
       db_query CompanyModel.duplicateCheck_sql (Some [obj_get data "handle"]) s in
     let '(rows, s2) :=
       db_query CompanyModel.create_sql
         (Some [obj_get data "handle"; obj_get data "name"; obj_get data "description";
                obj_get data "numEmployees"; obj_get data "logoUrl"]) s1 in
     (dupes ≠ [] →
      CompanyModel.create Number_toString db_query data s
      = (Throw (BadRequestError
                  ("Duplicate company: "
                   +:+ ToString_prop Number_toString (obj_get data "handle"))), s1))
     ∧ (dupes = [] →
        CompanyModel.create Number_toString db_query data s = (Return (rows !! 0), s2))).
Proof.
  split.
  - destruct (db_query _ _ s) as [dupes s1] eqn:H1.
    destruct (db_query _ _ s1) as [rows s2] eqn:H2.
    unfold UserModel.register.
    rewrite (bind_query _ _ _ _ s s1 dupes) by done.
    split.
    + intros Hd. by destruct dupes.
    + intros ->. cbn [lookup list_lookup].
      by rewrite (bind_query _ _ _ _ s1 s2 rows).
  - destruct (db_query _ _ s) as [dupes s1] eqn:H1.
    destruct (db_query _ _ s1) as [rows s2] eqn:H2.
    unfold CompanyModel.create.
    rewrite (bind_query _ _ _ _ s s1 dupes) by done.
    split.
    + intros Hd. by destruct dupes.
    + intros ->. cbn [lookup list_lookup].
      by rewrite (bind_query _ _ _ _ s1 s2 rows).
Qed.

Lemma creates_check_duplicates_first_witness :
  UserModel.register (λ _, EmptyString) (λ _ _, JStr "$2b$hash") (of_Z 12)
    (λ _ _ (s : nat), ([[("username", JStr "u1")]], Datatypes.S s))
    [("username", JStr "u1"); ("password", JStr "secret")] 0
  = (Throw (BadRequestError ("Duplicate username: " +:+ "u1")), 1).
Proof.
  apply (proj1 (proj1 (creates_check_duplicates_first
                         (λ _, EmptyString) (λ _ _, JStr "$2b$hash") (of_Z 12)
                         (λ _ _ (s : nat), ([[("username", JStr "u1")]], Datatypes.S s))
                         [("username", JStr "u1"); ("password", JStr "secret")] 0))).
  discriminate.
Defined.

Section alignment_facts.
Context (Number_toString : number → string).

Lemma where_clause_lookup (triggered : list (string * jsval)) i f :
  (Spec.where_clause triggered).1 !! i = Some f →
  ∃ p, triggered !! i = Some p
       ∧ f = p.1 +:+ "$" +:+ pretty (i + 1) +:+ " "
       ∧ (Spec.where_clause triggered).2 !! i = Some p.2.
Proof.
  unfold Spec.where_clause. cbn [fst snd]. rewrite list_lookup_imap.
  destruct (triggered !! i) as [p|] eqn:Hp; [|discriminate].
  intros [= <-]. exists p. by rewrite list_lookup_fmap, Hp.
Qed.

Lemma substring_match_elem comparison raw p :
  p ∈ Spec.substring_match Number_toString comparison raw →
  ∃ v, raw = Some v ∧ truthy (Some v) = true
       ∧ p = (comparison, JStr ("%" +:+ ToString Number_toString v +:+ "%")).
Proof.
  unfold Spec.substring_match. destruct raw as [v|]; [|by intros ?%elem_of_nil].
  destruct (truthy (Some v)) eqn:Htr; [|by intros ?%elem_of_nil].
  intros ->%list_elem_of_singleton. by exists v.
Qed.

Lemma numeric_threshold_elem comparison raw p :
  p ∈ Spec.numeric_threshold comparison raw →
  truthy raw = true ∧ Number_isInteger (ToNumber raw) = true
  ∧ p = (comparison, JNum (ToNumber raw)).
Proof.
  unfold Spec.numeric_threshold.
  destruct (truthy raw); [|by intros ?%elem_of_nil].
  destruct (Number_isInteger (ToNumber raw)); [|by intros ?%elem_of_nil].
  by intros ->%list_elem_of_singleton.
Qed.

Lemma boolean_flag_elem comparison raw p :
  p ∈ Spec.boolean_flag comparison raw →
  raw = Some (JStr "true") ∧ p = (comparison, JNum (Finite 0 0)).
Proof.
  unfold Spec.boolean_flag, strict_eq_str. case_bool_decide as Hraw;
    [|by intros ?%elem_of_nil].
  by intros ->%list_elem_of_singleton.
Qed.

End alignment_facts.

(** X16. In the filter composition every fragment carries the placeholder
    of its own position and the value at that position is the one its
    predicate binds: the title or name between [%] wildcards for [ILIKE],
    the Number of the raw threshold for [>=] and [<=], zero for the equity
    flag; and the fragment is there only if its filter triggered. *)
Theorem filter_placeholders_match_values
    (Number_toString : number → string) (data : object) (i : nat) (f : string) :
  ((Job.filters Number_toString data).1 !! i = Some f →
   ∃ comparison value,
     f = comparison +:+ "$" +:+ pretty (i + 1) +:+ " "
     ∧ (Job.filters Number_toString data).2 !! i = Some value
     ∧ ((comparison = "title ILIKE "
         ∧ ∃ title, obj_get data "title" = Some title ∧ truthy (Some title) = true
                    ∧ value = JStr ("%" +:+ ToString Number_toString title +:+ "%"))
        ∨ (comparison = "salary >= "
           ∧ truthy (obj_get data "minSalary") = true
           ∧ Number_isInteger (ToNumber (obj_get data "minSalary")) = true
           ∧ value = JNum (ToNumber (obj_get data "minSalary")))
        ∨ (comparison = "equity >= "
           ∧ obj_get data "hasEquity" = Some (JStr "true")
           ∧ value = JNum (Finite 0 0))))
  ∧ ((Company.filters Number_toString data).1 !! i = Some f →
     ∃ comparison value,
       f = comparison +:+ "$" +:+ pretty (i + 1) +:+ " "
       ∧ (Company.filters Number_toString data).2 !! i = Some value
       ∧ ((comparison = "name ILIKE "
           ∧ ∃ name, obj_get data "name" = Some name ∧ truthy (Some name) = true
                     ∧ value = JStr ("%" +:+ ToString Number_toString name +:+ "%"))
          ∨ (comparison = "num_employees >= "
             ∧ truthy (obj_get data "minEmployees") = true
             ∧ Number_isInteger (ToNumber (obj_get data "minEmployees")) = true
             ∧ value = JNum (ToNumber (obj_get data "minEmployees")))
          ∨ (comparison = "num_employees <= "
             ∧ truthy (obj_get data "maxEmployees") = true
             ∧ Number_isInteger (ToNumber (obj_get data "maxEmployees")) = true
             ∧ value = JNum (ToNumber (obj_get data "maxEmployees"))))).
Proof.
  split.
  - rewrite Job_filters_refines. intros (p & Hp & -> & Hval)%where_clause_lookup.
    exists p.1, p.2. split; [done|]. split; [done|].
    apply list_elem_of_lookup_2 in Hp. unfold Spec.job_triggered in Hp.
    apply elem_of_app in Hp as [Hp|Hp]; [|apply elem_of_app in Hp as [Hp|Hp]].
    + apply substring_match_elem in Hp as (v & Hv & Htr & ->). left. eauto.
    + apply numeric_threshold_elem in Hp as (Htr & Hint & ->). right. left. eauto.
    + apply boolean_flag_elem in Hp as (Hraw & ->). right. right. eauto.
  - rewrite Company_filters_refines. intros (p & Hp & -> & Hval)%where_clause_lookup.
    exists p.1, p.2. split; [done|]. split; [done|].
    apply list_elem_of_lookup_2 in Hp. unfold Spec.company_triggered in Hp.
    apply elem_of_app in Hp as [Hp|Hp]; [|apply elem_of_app in Hp as [Hp|Hp]].
    + apply substring_match_elem in Hp as (v & Hv & Htr & ->). left. eauto.
    + apply numeric_threshold_elem in Hp as (Htr & Hint & ->). right. left. eauto.
    + apply numeric_threshold_elem in Hp as (Htr & Hint & ->). right. right. eauto.
Qed.

Lemma filter_placeholders_match_values_witness :
  ∃ comparison value,
    "salary >= $2 " = comparison +:+ "$" +:+ pretty (1 + 1) +:+ " "
    ∧ (Job.filters (λ _, EmptyString)
         [("title", JStr "job1"); ("minSalary", JStr "1")]).2 !! 1 = Some value
    ∧ ((comparison = "title ILIKE "
        ∧ ∃ title, obj_get [("title", JStr "job1"); ("minSalary", JStr "1")] "title"
                   = Some title
                   ∧ truthy (Some title) = true
                   ∧ value = JStr ("%" +:+ ToString (λ _, EmptyString) title +:+ "%"))
       ∨ (comparison = "salary >= "
          ∧ truthy (obj_get [("title", JStr "job1"); ("minSalary", JStr "1")] "minSalary")
            = true
          ∧ Number_isInteger
              (ToNumber (obj_get [("title", JStr "job1"); ("minSalary", JStr "1")]
                                 "minSalary")) = true
          ∧ value = JNum (ToNumber (obj_get [("title", JStr "job1"); ("minSalary", JStr "1")]
                                            "minSalary")))
       ∨ (comparison = "equity >= "
          ∧ obj_get [("title", JStr "job1"); ("minSalary", JStr "1")] "hasEquity"
            = Some (JStr "true")
          ∧ value = JNum (Finite 0 0))).
Proof.
  apply (proj1 (filter_placeholders_match_values (λ _, EmptyString)
                  [("title", JStr "job1"); ("minSalary", JStr "1")] 1 "salary >= $2 ")).
  reflexivity.
Defined.
